(** * Caffeine Machine chat relay

    A shallow embedding of the two server entry points of the repository,
    the Pages Function [functions/api/chat.js] and the Worker [worker.js],
    and the properties of the relay contract checked against them.

    JavaScript values are the values [JSON.parse] produces, plus
    [undefined].  A handler is a computation that may return a [Response]
    at any point, throw, and call the upstream provider; the calls it
    makes are recorded in order. *)

From Stdlib Require Import String Ascii List ZArith QArith Bool Lia.
Import ListNotations.
Open Scope string_scope.
Open Scope Z_scope.
Open Scope list_scope.

(* ------------------------------------------------------------------ *)
(** ** JavaScript values                                               *)
(* ------------------------------------------------------------------ *)

#[local] Set Warnings "-register-all".

Inductive JsVal : Type :=
| JUndefined
| JNull
| JBool (b : bool)
| JNum (q : Q)
| JStr (s : string)
| JArr (items : list JsVal)
| JObj (fields : list (string * JsVal))
| JInfinity (negative : bool).    (* what a literal like 1e400 parses to *)

(** [!!v]: undefined, null, false, zero and the empty string are falsy. *)
Definition truthy (v : JsVal) : bool :=
  match v with
  | JUndefined | JNull => false
  | JBool b => b
  | JNum q => negb (Qnum q =? 0)
  | JStr s => negb (s =? "")%string
  | JArr _ | JObj _ | JInfinity _ => true
  end.

(** [typeof v === 'string'] *)
Definition is_string (v : JsVal) : bool :=
  match v with JStr _ => true | _ => false end.

(** [Array.isArray(v)] *)
Definition is_array (v : JsVal) : bool :=
  match v with JArr _ => true | _ => false end.

(** [v === null || v === undefined] *)
Definition nullish (v : JsVal) : bool :=
  match v with JUndefined | JNull => true | _ => false end.

(** Own property of an object literal; a missing key reads [undefined]. *)
Fixpoint lookup (k : string) (fs : list (string * JsVal)) : JsVal :=
  match fs with
  | [] => JUndefined
  | (k', v) :: rest => if (k' =? k)%string then v else lookup k rest
  end.

(** [v.name] on a value that is not null or undefined.  The relay reads
    only the names message, history, systemPrompt, role, parts, candidates,
    content, text and finishReason: none of them exists on the prototypes of
    numbers, booleans, strings or arrays, so only objects answer. *)
Definition prop (v : JsVal) (name : string) : JsVal :=
  match v with
  | JObj fs => lookup name fs
  | _ => JUndefined
  end.

(** [v[0]] on a value that is not null or undefined: the first element of
    an array, the first character of a string, the property "0" of an
    object. *)
Definition first (v : JsVal) : JsVal :=
  match v with
  | JArr (x :: _) => x
  | JStr (String c _) => JStr (String c EmptyString)
  | JObj fs => lookup "0" fs
  | _ => JUndefined
  end.

(** [v?.name] and [v?.[0]] *)
Definition opt_prop (v : JsVal) (name : string) : JsVal :=
  if nullish v then JUndefined else prop v name.

Definition opt_first (v : JsVal) : JsVal :=
  if nullish v then JUndefined else first v.

(** [a || b] *)
Definition js_or (a b : JsVal) : JsVal := if truthy a then a else b.

(** A destructuring default: [name = d] applies to [undefined] only. *)
Definition or_default (v d : JsVal) : JsVal :=
  match v with JUndefined => d | _ => v end.

(** [xs.slice(-n)]: the last [n] elements, all of them when there are
    fewer. *)
Definition slice_last {A : Type} (n : nat) (xs : list A) : list A :=
  skipn (length xs - n) xs.

(** The object literal [{ role: r, parts: p }]. *)
Definition turn (r p : JsVal) : JsVal := JObj [("role", r); ("parts", p)].

(** What the history loops push for an entry:
    [{ role: turn.role, parts: turn.parts }]. *)
Definition rebuild (t : JsVal) : JsVal := turn (prop t "role") (prop t "parts").

(** The object literal [{ role: r, parts: [{ text: t }] }]. *)
Definition text_turn (r : string) (t : JsVal) : JsVal :=
  turn (JStr r) (JArr [JObj [("text", t)]]).

Definition dquote : string := String (ascii_of_nat 34) EmptyString.
Definition newline : string := String (ascii_of_nat 10) EmptyString.

(* ------------------------------------------------------------------ *)
(** ** Errors, requests, responses                                     *)
(* ------------------------------------------------------------------ *)

(** What the engine itself throws. *)
Inductive Fault : Type :=
| BadJson                         (* the text is not JSON *)
| NullRead (name : string)        (* a property read on null or undefined *)
| NullDestructure                 (* destructuring null or undefined *)
| NotCallable (what : string)     (* calling something that is no function *)
| StatusOutOfRange (code : Z)     (* a Response with a status outside 200..599 *)
| StatusWithoutBody (code : Z).   (* a body given with a null body status *)

Inductive JsError : Type :=
| EngineError (f : Fault)
| FetchError (message : string).  (* [fetch] or the read of a body rejected *)

Inductive Body : Type :=
| NoBody                          (* [new Response(null, ...)] *)
| Text (s : string)
| Json (v : JsVal).               (* [JSON.stringify(v)]: an infinite number
                                     is written as null, a field that is
                                     undefined is left out *)

(** A response as [new Response(body, { status, headers })] has built
    it. *)
Record Response : Type := mkResponse {
  status : Z;
  headers : list (string * string);
  body : Body
}.

Record Request : Type := mkRequest {
  method : string;
  req_headers : list (string * string);
  req_text : string
}.

(** [env]: the binding [API_KEY_caffine], [None] when it is not set. *)
Record Env : Type := mkEnv { API_KEY_caffine : option string }.

(** An outbound call, [fetch(url, { method, headers, body })]. *)
Record Outbound : Type := mkOutbound {
  out_url : string;
  out_method : string;
  out_headers : list (string * string);
  out_body : Body
}.

(** What the upstream call comes back with: no response, a response whose
    body reads as [text], or a response the read of whose body rejects. *)
Inductive FetchResult : Type :=
| Rejected (message : string)
| Answered (code : Z) (text : string)
| Unread (code : Z) (message : string).

(** The body of a response that has arrived, as reading it will end. *)
Inductive Payload : Type :=
| Reads (text : string)
| Fails (message : string).

(** The statuses a response has no body with. *)
Definition null_body_status (code : Z) : bool :=
  (code =? 101) || (code =? 204) || (code =? 205) || (code =? 304).

(** The constructor takes a status from 200 to 599, and with a body none
    of the null body statuses. *)
Definition constructible (code : Z) (body : Body) : bool :=
  (200 <=? code) && (code <=? 599)
  && negb (null_body_status code
           && match body with NoBody => false | _ => true end).

(** [response.ok] *)
Definition ok (code : Z) : bool := (200 <=? code) && (code <=? 299).

(** [!apiKey] for the environment binding. *)
Definition key_missing (k : option string) : bool :=
  match k with
  | None => true
  | Some s => (s =? "")%string
  end.

Definition key_text (k : option string) : string :=
  match k with Some s => s | None => "undefined" end.

(* ------------------------------------------------------------------ *)
(** ** Handler computations                                            *)
(* ------------------------------------------------------------------ *)

Inductive Step (A : Type) : Type :=
| Next (a : A)                    (* go on with the next statement *)
| Return (r : Response)           (* [return r] *)
| Throw (e : JsError).            (* [throw e] *)

Arguments Next {A} a.
Arguments Return {A} r.
Arguments Throw {A} e.

(** A computation threads the list of outbound calls made so far. *)
Definition M (A : Type) : Type := list Outbound -> Step A * list Outbound.

Definition ret {A} (a : A) : M A := fun calls => (Next a, calls).

Definition bind {A B} (m : M A) (k : A -> M B) : M B :=
  fun calls =>
    match m calls with
    | (Next a, calls') => k a calls'
    | (Return r, calls') => (Return r, calls')
    | (Throw e, calls') => (Throw e, calls')
    end.

Definition return_ {A} (r : Response) : M A := fun calls => (Return r, calls).

Definition throw {A} (e : JsError) : M A := fun calls => (Throw e, calls).

(** [try { m } catch (err) { h err }] *)
Definition try_catch {A} (m : M A) (h : JsError -> M A) : M A :=
  fun calls =>
    match m calls with
    | (Throw e, calls') => h e calls'
    | other => other
    end.

Notation "x <- m ;; k" := (bind m (fun x => k))
  (at level 61, m at next level, right associativity).
Notation "' pat <- m ;; k" := (bind m (fun x => match x with pat => k end))
  (at level 61, pat pattern, m at next level, right associativity).
Notation "m ;;; k" := (bind m (fun _ => k))
  (at level 61, right associativity).

(** [if (c) return r;] *)
Definition return_if (c : bool) (r : Response) : M unit :=
  if c then return_ r else ret tt.

(** [v.name], throwing on null and undefined. *)
Definition get (v : JsVal) (name : string) : M JsVal :=
  if nullish v then throw (EngineError (NullRead name)) else ret (prop v name).

(** [new Response(body, { status: code, headers })]: a RangeError for a
    status outside 200..599, a TypeError for a body with a null body
    status. *)
Definition new_Response (body : Body) (code : Z)
           (headers : list (string * string)) : M Response :=
  if constructible code body then ret (mkResponse code headers body)
  else if (200 <=? code) && (code <=? 599)
       then throw (EngineError (StatusWithoutBody code))
       else throw (EngineError (StatusOutOfRange code)).

(** How a handler ends. *)
Inductive Completion : Type :=
| Returned (r : Response)
| Uncaught (e : JsError).

Record Run : Type := mkRun {
  completion : Completion;
  calls : list Outbound
}.

Definition finish (end_ : Step Response * list Outbound) : Run :=
  match end_ with
  | (Next r, cs) | (Return r, cs) => mkRun (Returned r) cs
  | (Throw e, cs) => mkRun (Uncaught e) cs
  end.

(** A handler starts with no call made. *)
Definition run (m : M Response) : Run := finish (m []).

(** The platform a handler runs on: the JSON parser ([None] when the text
    is not JSON), the upstream provider, and the text the engine puts in
    the [message] of the errors it throws. *)
Record Platform : Type := mkPlatform {
  JSON_parse : string -> option JsVal;
  upstream : Outbound -> FetchResult;
  fault_message : Fault -> string
}.

Section Platform.

Variable P : Platform.

(** [err.message] *)
Definition message_of (e : JsError) : string :=
  match e with
  | EngineError f => fault_message P f
  | FetchError m => m
  end.

(** [JSON.parse(text)], also behind [request.json()] and
    [response.json()]. *)
Definition parse_json (text : string) : M JsVal :=
  match JSON_parse P text with
  | Some v => ret v
  | None => throw (EngineError BadJson)
  end.

(** [await fetch(url, init)] *)
Definition fetch_upstream (out : Outbound) : M (Z * Payload) :=
  fun calls =>
    match upstream P out with
    | Rejected m => (Throw (FetchError m), calls ++ [out])
    | Answered code text => (Next (code, Reads text), calls ++ [out])
    | Unread code m => (Next (code, Fails m), calls ++ [out])
    end.

(** [await response.text()] *)
Definition read_text (body : Payload) : M string :=
  match body with
  | Reads text => ret text
  | Fails m => throw (FetchError m)
  end.

(** [await response.json()] *)
Definition read_json (body : Payload) : M JsVal :=
  text <- read_text body ;;
  parse_json text.

End Platform.

(** [const { message, history = [], systemPrompt = '' } = body] *)
Definition destructure (body : JsVal) : M (JsVal * JsVal * JsVal) :=
  if nullish body then throw (EngineError NullDestructure)
  else ret (prop body "message",
            or_default (prop body "history") (JArr []),
            or_default (prop body "systemPrompt") (JStr "")).

Definition MODEL : string := "gemma-3-27b-it".

(** The template literal of the upstream URL. *)
Definition api_url (key : string) : string :=
  ("https://generativelanguage.googleapis.com/v1beta/models/" ++ MODEL
   ++ ":generateContent?key=" ++ key)%string.

Definition generationConfig : JsVal :=
  JObj [("temperature", JNum (7 # 10));
        ("topK", JNum (40 # 1));
        ("topP", JNum (95 # 100));
        ("maxOutputTokens", JNum (512 # 1))].

(* ------------------------------------------------------------------ *)
(** ** The Pages Function, functions/api/chat.js                       *)
(* ------------------------------------------------------------------ *)

Module PagesFunction.

Definition corsHeaders : list (string * string) :=
  [("Access-Control-Allow-Origin", "*");
   ("Access-Control-Allow-Methods", "POST, OPTIONS");
   ("Access-Control-Allow-Headers", "Content-Type");
   ("Content-Type", "application/json")].

Definition ACK : string :=
  "Understood! I'm ready to assist as the Caffeine Machine AI barista. ☕".

Definition MISSING_MESSAGE : string :=
  ("Missing or invalid " ++ dquote ++ "message" ++ dquote ++ " field")%string.

Definition MISSING_KEY : string :=
  "Server configuration error: missing API key (API_KEY_caffine)".

Definition safetySettings : JsVal :=
  JArr [JObj [("category", JStr "HARM_CATEGORY_HARASSMENT");
              ("threshold", JStr "BLOCK_MEDIUM_AND_ABOVE")];
        JObj [("category", JStr "HARM_CATEGORY_HATE_SPEECH");
              ("threshold", JStr "BLOCK_MEDIUM_AND_ABOVE")]].

(** [if (systemPrompt) { contents.push(...); contents.push(...) }] *)
Definition push_persona (systemPrompt : JsVal) (contents : list JsVal)
  : list JsVal :=
  if truthy systemPrompt
  then contents ++ [text_turn "user" systemPrompt; text_turn "model" (JStr ACK)]
  else contents.

(** [for (const turn of trimmedHistory) if (turn.role &&
    Array.isArray(turn.parts)) contents.push({ role, parts })] *)
Fixpoint push_history (turns : list JsVal) (contents : list JsVal)
  : M (list JsVal) :=
  match turns with
  | [] => ret contents
  | t :: rest =>
      role <- get t "role" ;;
      if truthy role then
        parts <- get t "parts" ;;
        if is_array parts
        then push_history rest (contents ++ [turn role parts])
        else push_history rest contents
      else push_history rest contents
  end.

(** The test of that loop on an entry that can be read. *)
Definition shape (t : JsVal) : bool :=
  truthy (prop t "role") && is_array (prop t "parts").

(** Lines 44-63: the conversation sent upstream. *)
Definition build_contents (message history systemPrompt : JsVal)
  : M (list JsVal) :=
  let contents := push_persona systemPrompt [] in
  contents <- match history with
              | JArr items => push_history (slice_last 10 items) contents
              | _ => ret contents
              end ;;
  ret (contents ++ [text_turn "user" message]).

Definition outbound (key : string) (contents : list JsVal) : Outbound :=
  mkOutbound (api_url key) "POST" [("Content-Type", "application/json")]
    (Json (JObj [("contents", JArr contents);
                 ("generationConfig", generationConfig);
                 ("safetySettings", safetySettings)])).

(** The response [new Response(JSON.stringify(v), { status: code,
    headers: corsHeaders })] builds for a status it takes; the statuses
    written in the source, 200, 400, 500 and 502, are such. *)
Definition json_response (code : Z) (v : JsVal) : Response :=
  mkResponse code corsHeaders (Json v).

Section Handlers.

Variable P : Platform.

(** Lines 92-117: from the upstream response to the client's.  The status
    of line 97 is the upstream's, which the constructor may refuse; the
    read of line 94 and the constructor stand outside any try. *)
Definition normalize (code : Z) (body : Payload) : M Response :=
  (if negb (ok code) then
     errText <- read_text body ;;
     let errJson := match JSON_parse P errText with
                    | Some v => v
                    | None => JObj [("raw", JStr errText)]
                    end in
     r <- new_Response
            (Json (JObj [("error", JStr "Gemini API error");
                         ("status", JNum (inject_Z code));
                         ("details", errJson)]))
            code corsHeaders ;;
     return_ r
   else ret tt) ;;;
  geminiData <- try_catch (read_json P body)
            (fun _ => return_ (json_response 502
                         (JObj [("error", JStr "Failed to parse Gemini response")]))) ;;
  let candidate := opt_first (opt_prop geminiData "candidates") in
  let reply := opt_prop (opt_first (opt_prop (opt_prop candidate "content") "parts")) "text" in
  (if negb (truthy reply) then
     let finishReason := js_or (opt_prop candidate "finishReason") (JStr "UNKNOWN") in
     return_ (json_response 502
                (JObj [("error", JStr "No reply from Gemini");
                       ("finishReason", finishReason)]))
   else ret tt) ;;;
  ret (json_response 200 (JObj [("reply", reply)])).

Definition onRequestPost (request : Request) (env : Env) : M Response :=
  body <- try_catch (parse_json P (req_text request))
            (fun _ => return_ (json_response 400
                         (JObj [("error", JStr "Invalid JSON body")]))) ;;
  '(message, history, systemPrompt) <- destructure body ;;
  return_if (negb (truthy message) || negb (is_string message))
    (json_response 400 (JObj [("error", JStr MISSING_MESSAGE)])) ;;;
  let apiKey := API_KEY_caffine env in
  return_if (key_missing apiKey)
    (json_response 500 (JObj [("error", JStr MISSING_KEY)])) ;;;
  contents <- build_contents message history systemPrompt ;;
  '(code, body) <- try_catch (fetch_upstream P (outbound (key_text apiKey) contents))
            (fun fetchErr => return_ (json_response 502
                         (JObj [("error", JStr "Failed to reach Gemini API");
                                ("details", JStr (message_of P fetchErr))]))) ;;
  normalize code body.

(** [onRequestOptions()] takes no argument: the context it is called with
    is dropped. *)
Definition onRequestOptions (request : Request) (env : Env) : M Response :=
  ret (mkResponse 204
         [("Access-Control-Allow-Origin", "*");
          ("Access-Control-Allow-Methods", "POST, OPTIONS");
          ("Access-Control-Allow-Headers", "Content-Type")]
         NoBody).

End Handlers.

End PagesFunction.

(* ------------------------------------------------------------------ *)
(** ** The Worker, worker.js                                           *)
(* ------------------------------------------------------------------ *)

Module Worker.

Definition BARISTA_PROMPT : string :=
  ("You are a friendly barista at Caffeine Machine in Las Vegas. " ++ newline
   ++ "            Talk like a real person—simple, warm, and natural. Keep it short (1-2 sentences). "
   ++ newline
   ++ "            Mention the " ++ dquote ++ "Coffee Flight" ++ dquote
   ++ " if they're looking for recommendations! ☕")%string.

Definition ACK : string :=
  "Got it! I'll keep it simple and friendly, like a real chat. ☕".

Definition FALLBACK : string :=
  "I'm sorry, I couldn't brew a response right now. ☕".

Definition jsonHeaders : list (string * string) :=
  [("Content-Type", "application/json");
   ("Access-Control-Allow-Origin", "*")].

(** The callback of [forEach]: [if (turn.role && turn.parts)
    contents.push({ role, parts })], over the elements in order. *)
Fixpoint push_history (turns : list JsVal) (contents : list JsVal)
  : M (list JsVal) :=
  match turns with
  | [] => ret contents
  | t :: rest =>
      role <- get t "role" ;;
      if truthy role then
        parts <- get t "parts" ;;
        if truthy parts
        then push_history rest (contents ++ [turn role parts])
        else push_history rest contents
      else push_history rest contents
  end.

(** The test of that callback on an entry that can be read. *)
Definition shape (t : JsVal) : bool :=
  truthy (prop t "role") && truthy (prop t "parts").

(** [history.slice(-10).forEach(...)]: only an array has both methods.  A
    string has [slice] and no [forEach]; null has no properties at all. *)
Definition each_recent (history : JsVal) (contents : list JsVal)
  : M (list JsVal) :=
  match history with
  | JArr items => push_history (slice_last 10 items) contents
  | JStr _ => throw (EngineError (NotCallable "history.slice(...).forEach"))
  | JUndefined | JNull => throw (EngineError (NullRead "slice"))
  | _ => throw (EngineError (NotCallable "history.slice"))
  end.

(** Lines 42-60: the conversation sent upstream. *)
Definition build_contents (message history : JsVal) : M (list JsVal) :=
  let contents := [text_turn "user" (JStr BARISTA_PROMPT);
                   text_turn "model" (JStr ACK)] in
  contents <- each_recent history contents ;;
  ret (contents ++ [text_turn "user" message]).

Definition outbound (key : string) (contents : list JsVal) : Outbound :=
  mkOutbound (api_url key) "POST" [("Content-Type", "application/json")]
    (Json (JObj [("contents", JArr contents);
                 ("generationConfig", generationConfig)])).

Section Handlers.

Variable P : Platform.

(** Lines 78-86: the reply read out of the upstream body, whatever the
    upstream status.  A [Response] built without a status has status
    200, and one built from a string without a content type is sent as
    plain text. *)
Definition reply_response (body : Payload) : M Response :=
  data <- read_json P body ;;
  candidates <- get data "candidates" ;;
  let reply :=
    opt_prop (opt_first (opt_prop (opt_prop (opt_first candidates)
                                      "content") "parts")) "text" in
  ret (mkResponse 200 jsonHeaders
         (Json (JObj [("reply", js_or reply (JStr FALLBACK))]))).

Definition fetch (request : Request) (env : Env) : M Response :=
  return_if (method request =? "OPTIONS")%string
    (mkResponse 200
       [("Access-Control-Allow-Origin", "*");
        ("Access-Control-Allow-Methods", "POST, OPTIONS");
        ("Access-Control-Allow-Headers", "Content-Type")]
       NoBody) ;;;
  return_if (negb (method request =? "POST")%string)
    (mkResponse 405 [("content-type", "text/plain;charset=UTF-8")]
       (Text "Method Not Allowed")) ;;;
  try_catch
    (body <- parse_json P (req_text request) ;;
     '(message, history, systemPrompt) <- destructure body ;;
     let API_KEY := API_KEY_caffine env in
     return_if (key_missing API_KEY)
       (mkResponse 500 jsonHeaders
          (Json (JObj [("error", JStr "API key not configured")]))) ;;;
     contents <- build_contents message history ;;
     '(code, body) <- fetch_upstream P (outbound (key_text API_KEY) contents) ;;
     reply_response body)
    (fun err =>
       ret (mkResponse 500 jsonHeaders
              (Json (JObj [("error", JStr (message_of P err))])))).

End Handlers.

End Worker.

(* ------------------------------------------------------------------ *)
(** ** Trying the handlers on concrete inputs                          *)
(* ------------------------------------------------------------------ *)

Module Demo.

Definition turn_user_hi : JsVal := text_turn "user" (JStr "hi").
Definition turn_model_hello : JsVal := text_turn "model" (JStr "hello").

(** A string literal of JSON. *)
Definition q (s : string) : string := (dquote ++ s ++ dquote)%string.

(** [{"message":"hi"}] *)
Definition body_hi : string :=
  ("{" ++ q "message" ++ ":" ++ q "hi" ++ "}")%string.

(** [{"message":"hi","history":[null]}] *)
Definition body_null_entry : string :=
  ("{" ++ q "message" ++ ":" ++ q "hi" ++ ","
   ++ q "history" ++ ":[null]}")%string.

(** [{"message":"hi","history":[{"role":"user","parts":"hello"}]}] *)
Definition body_loose_entry : string :=
  ("{" ++ q "message" ++ ":" ++ q "hi" ++ ","
   ++ q "history" ++ ":[{" ++ q "role" ++ ":" ++ q "user" ++ ","
   ++ q "parts" ++ ":" ++ q "hello" ++ "}]}")%string.

(** [{"message":"hi","history":[<user hi>,<model hello>],
     "systemPrompt":"You are a barista."}] *)
Definition body_history : string :=
  ("{" ++ q "message" ++ ":" ++ q "hi" ++ ","
   ++ q "history" ++ ":[{" ++ q "role" ++ ":" ++ q "user" ++ ","
   ++ q "parts" ++ ":[{" ++ q "text" ++ ":" ++ q "hi" ++ "}]},{"
   ++ q "role" ++ ":" ++ q "model" ++ ","
   ++ q "parts" ++ ":[{" ++ q "text" ++ ":" ++ q "hello" ++ "}]}],"
   ++ q "systemPrompt" ++ ":" ++ q "You are a barista." ++ "}")%string.

(** Upstream bodies: [{"error":{"code":429}}],
    [{"candidates":[{"finishReason":"SAFETY"}]}] and
    [{"candidates":[{"content":{"parts":[{"text":"Try our Coffee Flight!"}]}}]}] *)
Definition quota : string :=
  ("{" ++ q "error" ++ ":{" ++ q "code" ++ ":429}}")%string.

Definition blocked : string :=
  ("{" ++ q "candidates" ++ ":[{" ++ q "finishReason" ++ ":"
   ++ q "SAFETY" ++ "}]}")%string.

Definition flight : string :=
  ("{" ++ q "candidates" ++ ":[{" ++ q "content" ++ ":{" ++ q "parts"
   ++ ":[{" ++ q "text" ++ ":" ++ q "Try our Coffee Flight!"
   ++ "}]}}]}")%string.

(** A parser that knows the texts above, [{}] and [null]. *)
Definition parse (text : string) : option JsVal :=
  if (text =? "{}")%string then Some (JObj [])
  else if (text =? "null")%string then Some JNull
  else if (text =? body_hi)%string then Some (JObj [("message", JStr "hi")])
  else if (text =? body_null_entry)%string then
    Some (JObj [("message", JStr "hi"); ("history", JArr [JNull])])
  else if (text =? body_history)%string then
    Some (JObj [("message", JStr "hi");
                ("history", JArr [turn_user_hi; turn_model_hello]);
                ("systemPrompt", JStr "You are a barista.")])
  else if (text =? body_loose_entry)%string then
    Some (JObj [("message", JStr "hi");
                ("history", JArr [JObj [("role", JStr "user");
                                        ("parts", JStr "hello")]])])
  else if (text =? quota)%string then
    Some (JObj [("error", JObj [("code", JNum (429 # 1))])])
  else if (text =? blocked)%string then
    Some (JObj [("candidates", JArr [JObj [("finishReason", JStr "SAFETY")]])])
  else if (text =? flight)%string then
    Some (JObj [("candidates",
                 JArr [JObj [("content",
                              JObj [("parts",
                                     JArr [JObj [("text", JStr "Try our Coffee Flight!")]])])]])])
  else None.

Definition messages (f : Fault) : string :=
  match f with
  | BadJson => "Unexpected token"
  | NullRead name => ("Cannot read properties of null (reading '" ++ name ++ "')")%string
  | NullDestructure => "Cannot destructure 'object null' as it is null."
  | NotCallable what => (what ++ " is not a function")%string
  | StatusOutOfRange _ =>
      "Responses may only be constructed with status codes in the range 200 to 599, inclusive."
  | StatusWithoutBody _ =>
      "Response with null body status cannot have body"
  end.

(** A platform whose upstream answers every call with [code] and
    [text]. *)
Definition answering (code : Z) (text : string) : Platform :=
  mkPlatform parse (fun _ => Answered code text) messages.

(** A platform whose upstream cannot be reached. *)
Definition unreachable : Platform :=
  mkPlatform parse (fun _ => Rejected "connection refused") messages.

Definition post (text : string) : Request := mkRequest "POST" [] text.

Definition env_key : Env := mkEnv (Some "secret").

End Demo.

(** More inputs: a history that is no array, a caller's own system
    prompt. *)
Module Cases.

(** [{"message":"hi","history":"earlier"}] *)
Definition body_history_text : string :=
  ("{" ++ Demo.q "message" ++ ":" ++ Demo.q "hi" ++ ","
   ++ Demo.q "history" ++ ":" ++ Demo.q "earlier" ++ "}")%string.

(** [{"message":"hi","systemPrompt":"Be rude."}] *)
Definition body_prompt : string :=
  ("{" ++ Demo.q "message" ++ ":" ++ Demo.q "hi" ++ ","
   ++ Demo.q "systemPrompt" ++ ":" ++ Demo.q "Be rude." ++ "}")%string.

Definition parse (text : string) : option JsVal :=
  if (text =? body_history_text)%string then
    Some (JObj [("message", JStr "hi"); ("history", JStr "earlier")])
  else if (text =? body_prompt)%string then
    Some (JObj [("message", JStr "hi"); ("systemPrompt", JStr "Be rude.")])
  else Demo.parse text.

Definition answering (code : Z) (text : string) : Platform :=
  mkPlatform parse (fun _ => Answered code text) Demo.messages.

End Cases.

(* ------------------------------------------------------------------ *)
(** ** The chat widget of the page, script.js                          *)
(* ------------------------------------------------------------------ *)

Module Script.

(** [s.replace(/c/g, by)] for a pattern of one character. *)
Fixpoint replace_all (c : ascii) (by_ : string) (s : string) : string :=
  match s with
  | EmptyString => EmptyString
  | String x rest =>
      if Ascii.eqb x c then (by_ ++ replace_all c by_ rest)%string
      else String x (replace_all c by_ rest)
  end.

Definition formatBotText (text : string) : string :=
  replace_all (ascii_of_nat 10) "<br>" text.

Definition escapeHtml (str : string) : string :=
  replace_all ">" "&gt;" (replace_all "<" "&lt;" (replace_all "&" "&amp;" str)).

(** A child of the messages element. *)
Record Bubble : Type := mkBubble {
  className : string;
  innerHTML : string
}.

(** [new SpeechSynthesisUtterance(text)] with the fields [speak] sets. *)
Record Utterance : Type := mkUtterance {
  u_text : string;
  u_rate : Q;
  u_pitch : Q;
  u_volume : Q;
  u_voice : option string
}.

(** What the widget keeps and shows: the value of the input box, the
    children of the messages element, the global [conversationHistory],
    the timers set and not yet run, the requests sent, and the utterances
    handed to the speech synthesis. *)
Record Page : Type := mkPage {
  input_value : string;
  messages : list Bubble;
  conversationHistory : list JsVal;
  timers : list (Z * string);
  requests : list Outbound;
  spoken : list Utterance
}.

(** The page as loaded. *)
Definition loaded : Page := mkPage "" [] [] [] [] [].

(** [appendMsg(text, sender)] for a string; the scroll position is not
    kept. *)
Definition appendMsg (text sender : string) (pg : Page) : Page :=
  let inner := if (sender =? "bot")%string then formatBotText text
               else escapeHtml text in
  mkPage (input_value pg)
    (messages pg
     ++ [mkBubble ("chat-msg " ++ sender)
           ("<div class=" ++ dquote ++ "msg-bubble" ++ dquote ++ ">"
            ++ inner ++ "</div>")])
    (conversationHistory pg) (timers pg) (requests pg) (spoken pg).

Definition RESPONSE : string :=
  "That's a great question! ☕ Our Coffee Flights are the best way to experience our flavors. Is there anything else you'd like to know about our Southwest Las Vegas location?".

(** Lines 159-165: the reply is a timer of one second that appends the
    fixed response. *)
Definition getBotResponse (userText : string) (pg : Page) : Page :=
  mkPage (input_value pg) (messages pg) (conversationHistory pg)
    (timers pg ++ [(1000, RESPONSE)]) (requests pg) (spoken pg).

(** The oldest timer runs: [appendMsg(response, 'bot')]. *)
Definition timer_runs (pg : Page) : Page :=
  match timers pg with
  | [] => pg
  | (_, response) :: rest =>
      appendMsg response "bot"
        (mkPage (input_value pg) (messages pg) (conversationHistory pg)
           rest (requests pg) (spoken pg))
  end.

Section Handlers.

(** [String.prototype.trim] of the browser. *)
Variable trim : string -> string.

(** What [handleSend] calls as [getBotResponse]. *)
Variable respond : string -> Page -> Page.

(** Lines 140-146. *)
Definition handleSend_with (pg : Page) : Page :=
  let text := trim (input_value pg) in
  if (text =? "")%string then pg
  else
    let pg := mkPage "" (messages pg) (conversationHistory pg) (timers pg)
                (requests pg) (spoken pg) in
    respond text (appendMsg text "user" pg).

End Handlers.

Definition handleSend (trim : string -> string) : Page -> Page :=
  handleSend_with trim getBotResponse.

End Script.

(* ------------------------------------------------------------------ *)
(** ** The chat widget that talks to the Worker                        *)
(* ------------------------------------------------------------------ *)

(** The page script as functions/api/chat.js carries it after the
    function (lines 131-325): [appendMsg], [formatBotText] and
    [escapeHtml] read as in script.js, [getBotResponse] posts to the
    Worker and keeps the conversation, and replies are spoken. *)
Module ChatPage.

Import Script.

Definition SYSTEM_PROMPT : string :=
  ("You are a friendly barista at Caffeine Machine in Las Vegas. " ++ newline
   ++ "Talk like a real person—keep it simple, warm, and natural. Use a few emojis, be helpful, and keep answers short (under 2 sentences)."
   ++ newline
   ++ "If someone asks about drinks, recommend a " ++ dquote ++ "Coffee Flight"
   ++ dquote ++ "!")%string.

Definition WORKER_URL : string :=
  "https://green-grass-4b15.cogniq-bharath.workers.dev/".

Definition ERROR_MSG : string :=
  "☕ Sorry, my steam wand is acting up. Please try again in a moment!".

(** [name.includes(needle)] *)
Fixpoint includes (needle s : string) : bool :=
  if prefix needle s then true
  else match s with
       | EmptyString => false
       | String _ rest => includes needle rest
       end.

(** [voices.find(v => v.name.includes('Google') ||
    v.name.includes('Natural')) || voices[0]], over the names of the
    voices. *)
Definition naturalVoice (voices : list string) : option string :=
  match find (fun name => includes "Google" name || includes "Natural" name)
             voices with
  | Some v => Some v
  | None => hd_error voices
  end.

(** [speak(text)]: [synth] is [None] when the window has no
    speechSynthesis, and else the names of its voices. *)
Definition speak (synth : option (list string)) (text : string) (pg : Page)
  : Page :=
  match synth with
  | None => pg
  | Some voices =>
      mkPage (input_value pg) (messages pg) (conversationHistory pg)
        (timers pg) (requests pg)
        (spoken pg
         ++ [mkUtterance text (95 # 100) 1 1 (naturalVoice voices)])
  end.

(** The request of lines 292-300. *)
Definition chat_request (userText : string) (pg : Page) : Outbound :=
  mkOutbound WORKER_URL "POST" [("Content-Type", "application/json")]
    (Json (JObj [("message", JStr userText);
                 ("history", JArr (conversationHistory pg));
                 ("systemPrompt", JStr SYSTEM_PROMPT)])).

Section Handlers.

(** The browser: its JSON parser and what its [fetch] comes back with. *)
Variable B : Platform.
Variable synth : option (list string).
Variable trim : string -> string.

(** The catch block of lines 311-316. *)
Definition apologize (pg : Page) : Page :=
  speak synth ERROR_MSG (appendMsg ERROR_MSG "bot" pg).

(** Lines 292-300, up to the await of [fetch]: the request is written
    from the conversation as it is at this moment. *)
Definition asks (userText : string) (pg : Page) : Page :=
  mkPage (input_value pg) (messages pg) (conversationHistory pg)
    (timers pg) (requests pg ++ [chat_request userText pg]) (spoken pg).

(** Lines 302-316, from the answer on.  Whatever is thrown inside the try
    block ends in the catch block: a rejected fetch, a body that cannot
    be read or is not JSON, the read of [reply] on null, the error thrown
    for a falsy reply, and for a reply that is no string the call of
    [text.replace] in [formatBotText], before anything is appended. *)
Definition hears (userText : string) (result : FetchResult) (pg : Page)
  : Page :=
  match result with
  | Rejected _ => apologize pg
  | Unread _ _ => apologize pg
  | Answered _ text =>
      match JSON_parse B text with
      | None => apologize pg
      | Some data =>
          if nullish data then apologize pg
          else
            let reply := prop data "reply" in
            if truthy reply then
              match reply with
              | JStr t =>
                  let pg := speak synth t (appendMsg t "bot" pg) in
                  mkPage (input_value pg) (messages pg)
                    (conversationHistory pg
                     ++ [text_turn "user" (JStr userText);
                         text_turn "model" (JStr t)])
                    (timers pg) (requests pg) (spoken pg)
              | _ => apologize pg
              end
            else apologize pg
      end
  end.

(** Lines 290-317 when nothing else happens between the request and its
    answer. *)
Definition getBotResponse (userText : string) (pg : Page) : Page :=
  hears userText (upstream B (chat_request userText pg)) (asks userText pg).

Definition handleSend : Page -> Page :=
  handleSend_with trim getBotResponse.

(** [recognition.onresult]: the transcript goes into the input box and is
    sent. *)
Definition onresult (transcript : string) (pg : Page) : Page :=
  handleSend
    (mkPage transcript (messages pg) (conversationHistory pg) (timers pg)
       (requests pg) (spoken pg)).

(** The user types [text] and sends it. *)
Definition types_and_sends (text : string) (pg : Page) : Page :=
  handleSend
    (mkPage text (messages pg) (conversationHistory pg) (timers pg)
       (requests pg) (spoken pg)).

(** [handleSend] does not await [getBotResponse]: when it returns, the
    request is out and the answer still to come. *)
Definition send_returns (text : string) (pg : Page) : Page :=
  handleSend_with trim asks
    (mkPage text (messages pg) (conversationHistory pg) (timers pg)
       (requests pg) (spoken pg)).

End Handlers.

End ChatPage.

(** A browser for trying the widget: the Worker answers with a reply, or
    cannot be reached. *)
Module Visit.

(** [{"reply":"Try our Coffee Flight!"}] *)
Definition reply_body : string :=
  ("{" ++ Demo.q "reply" ++ ":" ++ Demo.q "Try our Coffee Flight!" ++ "}")%string.

Definition parse (text : string) : option JsVal :=
  if (text =? reply_body)%string then
    Some (JObj [("reply", JStr "Try our Coffee Flight!")])
  else Demo.parse text.

Definition answering (code : Z) (text : string) : Platform :=
  mkPlatform parse (fun _ => Answered code text) Demo.messages.

Definition offline : Platform :=
  mkPlatform parse (fun _ => Rejected "Failed to fetch") Demo.messages.

(** A [trim] for texts without blanks around them. *)
Definition trimmed (s : string) : string := s.

End Visit.

(** Two long conversations that end alike: eleven entries, the oldest
    null, and the last ten of them alone. *)
Module Long.

Definition recent : list JsVal :=
  [Demo.turn_user_hi; Demo.turn_model_hello;
   Demo.turn_user_hi; Demo.turn_model_hello;
   Demo.turn_user_hi; Demo.turn_model_hello;
   Demo.turn_user_hi; Demo.turn_model_hello;
   Demo.turn_user_hi; Demo.turn_model_hello].

Definition body (old : list JsVal) : JsVal :=
  JObj [("message", JStr "hi"); ("history", JArr (old ++ recent))].

(** A parser for two texts, named for the histories they hold. *)
Definition parse (text : string) : option JsVal :=
  if (text =? "eleven")%string then Some (body [JNull])
  else if (text =? "ten")%string then Some (body [])
  else None.

Definition platform : Platform :=
  mkPlatform parse (fun _ => Answered 200 Demo.flight) Demo.messages.

End Long.

(* ------------------------------------------------------------------ *)
(** ** Vocabulary of the contract                                     *)
(* ------------------------------------------------------------------ *)

(** No entry of [turns] is null or undefined. *)
Definition readable (turns : list JsVal) : Prop :=
  Forall (fun t => nullish t = false) turns.

(** The entry has no role or no parts to read. *)
Definition lacks_role_or_parts (t : JsVal) : Prop :=
  prop t "role" = JUndefined \/ prop t "parts" = JUndefined.

(** The value is no object literal: a number, a boolean, a string or an
    array. *)
Definition is_object (v : JsVal) : bool :=
  match v with JObj _ => true | _ => false end.

(** The response of the Pages Function once the upstream call has come
    back. *)
Definition pages_after (P : Platform) (res : FetchResult) : Completion :=
  match res with
  | Rejected m =>
      Returned (PagesFunction.json_response 502
                  (JObj [("error", JStr "Failed to reach Gemini API");
                         ("details", JStr m)]))
  | Answered code text =>
      completion (run (PagesFunction.normalize P code (Reads text)))
  | Unread code m =>
      completion (run (PagesFunction.normalize P code (Fails m)))
  end.

(** The response of the Worker once the upstream call has come back. *)
Definition worker_after (P : Platform) (res : FetchResult) : Completion :=
  match res with
  | Rejected m =>
      Returned (mkResponse 500 Worker.jsonHeaders
                  (Json (JObj [("error", JStr m)])))
  | Answered code text =>
      match fst (Worker.reply_response P (Reads text) []) with
      | Next r | Return r => Returned r
      | Throw e =>
          Returned (mkResponse 500 Worker.jsonHeaders
                      (Json (JObj [("error", JStr (message_of P e))])))
      end
  | Unread code m =>
      Returned (mkResponse 500 Worker.jsonHeaders
                  (Json (JObj [("error", JStr m)])))
  end.

(** The persona priming pair: a user turn with the persona text and the
    canned model acknowledgment. *)
Definition priming_pair (persona ack : string) : list JsVal :=
  [text_turn "user" (JStr persona); text_turn "model" (JStr ack)].

(** The Pages Function's persona is the caller's [systemPrompt]; the
    empty string configures none. *)
Definition pages_persona (systemPrompt : string) : list JsVal :=
  if (systemPrompt =? "")%string then []
  else priming_pair systemPrompt PagesFunction.ACK.

(** The Worker's persona is fixed. *)
Definition worker_persona : list JsVal :=
  priming_pair Worker.BARISTA_PROMPT Worker.ACK.

(** The history part of the payload: the entries of the trailing window
    that pass the test, as the loop pushes them. *)
Definition forwarded (test : JsVal -> bool) (history : list JsVal)
  : list JsVal :=
  map rebuild (filter test (slice_last 10 history)).

(** The payload opens with a priming pair for [persona]. *)
Definition primed_with (persona : string) (contents : list JsVal) : Prop :=
  exists ack rest,
    contents = text_turn "user" (JStr persona)
               :: text_turn "model" (JStr ack) :: rest.

(** [body.name] of a JSON response; [undefined] when the body is no JSON
    object. *)
Definition body_field (r : Response) (name : string) : JsVal :=
  match body r with
  | Json v => prop v name
  | _ => JUndefined
  end.

(** The run answered the caller with HTTP status [code]. *)
Definition answers_with (code : Z) (r : Run) : Prop :=
  exists resp, completion r = Returned resp /\ status resp = code.

(** The upstream body parsed as JSON, or its raw text wrapped in
    [{ raw }] when it is not JSON. *)
Definition upstream_details (P : Platform) (text : string) : JsVal :=
  match JSON_parse P text with
  | Some v => v
  | None => JObj [("raw", JStr text)]
  end.

(** The run answered the caller with the upstream status and the upstream
    body in [details]. *)
Definition surfaces_upstream_error (P : Platform) (code : Z) (text : string)
           (r : Run) : Prop :=
  exists resp,
    completion r = Returned resp
    /\ status resp = code
    /\ body_field resp "details" = upstream_details P text.

(** The first candidate of an upstream body and the text of its first
    part, as both handlers read them. *)
Definition candidate_of (data : JsVal) : JsVal :=
  opt_first (opt_prop data "candidates").

Definition reply_of (data : JsVal) : JsVal :=
  opt_prop (opt_first (opt_prop (opt_prop (candidate_of data) "content")
                         "parts")) "text".

(** The three CORS headers of a preflight answer. *)
Definition preflightHeaders : list (string * string) :=
  [("Access-Control-Allow-Origin", "*");
   ("Access-Control-Allow-Methods", "POST, OPTIONS");
   ("Access-Control-Allow-Headers", "Content-Type")].

(** The history part of a payload for any value of [history]: what the
    handler pushes when the value is an array, nothing in the Pages
    Function when it is not. *)
Definition history_part (test : JsVal -> bool) (history : JsVal)
  : list JsVal :=
  match history with
  | JArr items => forwarded test items
  | _ => []
  end.

(** The statuses the Pages Function sets itself. *)
Definition pages_own_status (code : Z) : Prop :=
  code = 200 \/ code = 400 \/ code = 500 \/ code = 502.

(** What the Pages Function lets escape once the upstream call has come
    back as [res]: on a non-2xx answer the failure of reading the body,
    or the refusal of [new Response] to carry the upstream's status (one
    outside 200..599, or 304 with a body). *)
Definition thrown_after_call (res : FetchResult) (e : JsError) : Prop :=
  match res with
  | Rejected _ => False
  | Unread code m => ok code = false /\ e = FetchError m
  | Answered code _ =>
      ok code = false
      /\ (((code < 200 \/ 599 < code)
           /\ e = EngineError (StatusOutOfRange code))
          \/ (code = 304 /\ e = EngineError (StatusWithoutBody code)))
  end.

(** An upstream result the Pages Function can relay: a transport failure,
    any 2xx answer, or a non-2xx answer whose body can be read and whose
    status a response with a body can carry. *)
Definition relayable (res : FetchResult) : Prop :=
  match res with
  | Rejected _ => True
  | Unread code _ => ok code = true
  | Answered code _ =>
      ok code = true \/ (200 <= code <= 599 /\ code <> 304)
  end.

(** The character [c] occurs in [s]. *)
Definition occurs (c : ascii) (s : string) : Prop :=
  In c (list_ascii_of_string s).

(** [s] with every character replaced by what [f] gives for it. *)
Fixpoint each_char (f : ascii -> string) (s : string) : string :=
  match s with
  | EmptyString => EmptyString
  | String c rest => (f c ++ each_char f rest)%string
  end.

(** The entity for a character of HTML markup, the character itself
    otherwise. *)
Definition entity (c : ascii) : string :=
  if Ascii.eqb c "&" then "&amp;"
  else if Ascii.eqb c "<" then "&lt;"
  else if Ascii.eqb c ">" then "&gt;"
  else String c EmptyString.

(** A line break for a newline, the character itself otherwise. *)
Definition line_break (c : ascii) : string :=
  if Ascii.eqb c (ascii_of_nat 10) then "<br>" else String c EmptyString.

(** One exchange as the widget keeps it: the user's text, then the
    model's reply. *)
Definition exchange (asked replied : string) : list JsVal :=
  [text_turn "user" (JStr asked); text_turn "model" (JStr replied)].

(** A conversation of complete exchanges. *)
Definition kept (pairs : list (string * string)) : list JsVal :=
  flat_map (fun p => exchange (fst p) (snd p)) pairs.

(** What happens at the widget: the user types a text and sends it, or
    the answer to one of the requests still awaited arrives.  Sends need
    not wait for answers, and answers need not come in order. *)
Inductive Event : Type :=
| Typed (text : string)
| Heard (i : nat) (result : FetchResult).

(** The page, and the texts whose answers are awaited, oldest first. *)
Record Tab : Type := mkTab {
  page : Script.Page;
  awaited : list string
}.

Definition opened : Tab := mkTab Script.loaded [].

Definition happens (B : Platform) (synth : option (list string))
           (trim : string -> string) (ev : Event) (tab : Tab) : Tab :=
  match ev with
  | Typed text =>
      mkTab (ChatPage.send_returns trim text (page tab))
            (if (trim text =? "")%string then awaited tab
             else awaited tab ++ [trim text])
  | Heard i result =>
      match nth_error (awaited tab) i with
      | None => tab
      | Some userText =>
          mkTab (ChatPage.hears B synth userText result (page tab))
                (firstn i (awaited tab) ++ skipn (S i) (awaited tab))
      end
  end.

(** A visit: the events in the order they happen. *)
Definition visit (B : Platform) (synth : option (list string))
           (trim : string -> string) (events : list Event) (tab : Tab) : Tab :=
  fold_left (fun tab ev => happens B synth trim ev tab) events tab.

(** The sends among the events. *)
Definition sends (events : list Event) : nat :=
  length (filter (fun ev => match ev with Typed _ => true | _ => false end)
                 events).

(** A turn of one text part, written out. *)
Definition said (role text : string) : JsVal :=
  JObj [("role", JStr role); ("parts", JArr [JObj [("text", JStr text)]])].

(** A history entry as the handlers send it on: its role and its parts,
    nothing else of it. *)
Definition resent (t : JsVal) : JsVal :=
  JObj [("role", prop t "role"); ("parts", prop t "parts")].

(** The last [n] entries of a list, all of them when there are fewer. *)
Definition last_entries {A : Type} (n : nat) (xs : list A) : list A :=
  rev (firstn n (rev xs)).

(** The contents field of the body of an outbound call. *)
Definition sent_contents (o : Outbound) : option (list JsVal) :=
  match out_body o with
  | Json (JObj fields) =>
      match lookup "contents" fields with
      | JArr contents => Some contents
      | _ => None
      end
  | _ => None
  end.

(** The address of the model, up to the key. *)
Definition ENDPOINT : string :=
  "https://generativelanguage.googleapis.com/v1beta/models/gemma-3-27b-it:generateContent?key=".

(** A conversation of complete exchanges, written out. *)
Definition conversation (pairs : list (string * string)) : list JsVal :=
  flat_map (fun p => [said "user" (fst p); said "model" (snd p)]) pairs.

(** The message field of a request of the widget. *)
Definition request_field (name : string) (o : Outbound) : JsVal :=
  match out_body o with
  | Json v => prop v name
  | _ => JUndefined
  end.

(** The bubble [appendMsg] makes for a sender and the HTML inside. *)
Definition bubble (sender inner : string) : Script.Bubble :=
  Script.mkBubble ("chat-msg " ++ sender)
    ("<div class=" ++ dquote ++ "msg-bubble" ++ dquote ++ ">"
     ++ inner ++ "</div>").

(** What [speak] adds to the utterances. *)
Definition utterances (synth : option (list string)) (text : string)
  : list Script.Utterance :=
  match synth with
  | None => []
  | Some voices =>
      [Script.mkUtterance text (95 # 100) 1 1 (ChatPage.naturalVoice voices)]
  end.

(** The request the widget sends for a text and the conversation kept. *)
Definition widget_body (m : string) (history : list JsVal) : JsVal :=
  JObj [("message", JStr m);
        ("history", JArr history);
        ("systemPrompt", JStr ChatPage.SYSTEM_PROMPT)].

Definition widget_request (m : string) (history : list JsVal) : Outbound :=
  mkOutbound ChatPage.WORKER_URL "POST" [("Content-Type", "application/json")]
    (Json (widget_body m history)).

(** A voice name the widget prefers. *)
Definition sounds_natural (name : string) : bool :=
  ChatPage.includes "Google" name || ChatPage.includes "Natural" name.

(** The name holds [needle] somewhere. *)
Definition holds (needle name : string) : Prop :=
  exists before after, name = (before ++ needle ++ after)%string.

(** A voice the widget prefers: its name holds Google or Natural. *)
Definition natural (name : string) : Prop :=
  holds "Google" name \/ holds "Natural" name.

(** Exchanges of non-empty texts. *)
Definition spoken_for (pairs : list (string * string)) : Prop :=
  Forall (fun p => fst p <> "" /\ snd p <> "") pairs.

(** A request as the widget writes it: to the Worker's address, a POST
    of JSON with a non-empty message, a history of complete exchanges,
    and the widget's system prompt. *)
Definition widget_sent (o : Outbound) : Prop :=
  exists m pairs,
    m <> "" /\ spoken_for pairs
    /\ o = mkOutbound "https://green-grass-4b15.cogniq-bharath.workers.dev/"
             "POST" [("Content-Type", "application/json")]
             (Json (JObj [("message", JStr m);
                          ("history", JArr (conversation pairs));
                          ("systemPrompt", JStr ChatPage.SYSTEM_PROMPT)])).

(** What holds of the widget all along a visit with at most [n] sends so
    far: the conversation kept is one of complete exchanges, the texts
    awaiting an answer are not empty, every request sent is well formed,
    and exchanges kept and answers awaited are no more than the requests
    sent. *)
Definition steady (n : nat) (tab : Tab) : Prop :=
  (exists pairs,
      spoken_for pairs
      /\ Script.conversationHistory (page tab) = conversation pairs
      /\ (length pairs + length (awaited tab)
          <= length (Script.requests (page tab)))%nat)
  /\ Forall (fun u => u <> "") (awaited tab)
  /\ Forall widget_sent (Script.requests (page tab))
  /\ (length (Script.requests (page tab)) <= n)%nat.

(** A request with twelve history entries: the oldest is null, and among
    the last ten one has no parts and one is a number. *)
Module Twelve.

Definition history : list JsVal :=
  [JNull;
   said "model" "two";
   said "user" "three";
   said "model" "four";
   JObj [("role", JStr "user")];
   said "model" "six";
   said "user" "seven";
   JNum (8 # 1);
   said "user" "nine";
   said "model" "ten";
   said "user" "eleven";
   said "model" "twelve"].

Definition body : JsVal :=
  JObj [("message", JStr "hi");
        ("history", JArr history);
        ("systemPrompt", JStr "You are a barista.")].

(** A platform that parses every request text to that body. *)
Definition platform : Platform :=
  mkPlatform (fun _ => Some body) (fun _ => Answered 200 Demo.flight)
    Demo.messages.

(** What of the history is sent on: eight of the last ten. *)
Definition sent_on : list JsVal :=
  [said "user" "three";
   said "model" "four";
   said "model" "six";
   said "user" "seven";
   said "user" "nine";
   said "model" "ten";
   said "user" "eleven";
   said "model" "twelve"].

End Twelve.

(** Upstream answers for the edges of the normalizer: a candidate whose
    finishReason is the empty string, and an upstream that quotes the
    address it was called at. *)
Module Edges.

(** [{"candidates":[{"finishReason":""}]}] *)
Definition blank_reason : string :=
  ("{" ++ Demo.q "candidates" ++ ":[{" ++ Demo.q "finishReason" ++ ":"
   ++ Demo.q "" ++ "}]}")%string.

Definition parse (text : string) : option JsVal :=
  if (text =? blank_reason)%string then
    Some (JObj [("candidates", JArr [JObj [("finishReason", JStr "")]])])
  else Demo.parse text.

Definition answering (code : Z) (text : string) : Platform :=
  mkPlatform parse (fun _ => Answered code text) Demo.messages.

(** The read of the body rejects. *)
Definition breaking (code : Z) : Platform :=
  mkPlatform parse (fun _ => Unread code "connection reset") Demo.messages.

(** The transport error names the address that could not be reached. *)
Definition quoting : Platform :=
  mkPlatform parse
    (fun out => Rejected ("request to " ++ out_url out ++ " failed"))
    Demo.messages.

End Edges.

(* ------------------------------------------------------------------ *)
(** ** Facts about the building blocks                                 *)
(* ------------------------------------------------------------------ *)

Lemma slice_last_length {A : Type} (n : nat) (xs : list A) :
  (length (slice_last n xs) <= n)%nat.
Proof. unfold slice_last. rewrite length_skipn. lia. Qed.

Lemma slice_last_short {A : Type} (n : nat) (xs : list A) :
  (length xs <= n)%nat -> slice_last n xs = xs.
Proof.
  intros H. unfold slice_last.
  replace (length xs - n)%nat with 0%nat by lia. reflexivity.
Qed.

Lemma slice_last_suffix {A : Type} (n : nat) (xs : list A) :
  exists dropped, xs = dropped ++ slice_last n xs.
Proof.
  exists (firstn (length xs - n) xs). unfold slice_last.
  symmetry. apply firstn_skipn.
Qed.

Lemma slice_last_last_entries {A : Type} (n : nat) (xs : list A) :
  slice_last n xs = last_entries n xs.
Proof.
  unfold slice_last, last_entries.
  rewrite firstn_rev, rev_involutive. reflexivity.
Qed.

Lemma readable_slice (n : nat) (xs : list JsVal) :
  readable xs -> readable (slice_last n xs).
Proof.
  unfold readable, slice_last. intros H.
  rewrite <- (firstn_skipn (length xs - n) xs) in H.
  apply Forall_app in H. tauto.
Qed.

Lemma rebuild_turn (r p : JsVal) : rebuild (turn r p) = turn r p.
Proof. reflexivity. Qed.

Lemma non_object_lacks (t : JsVal) :
  is_object t = false -> lacks_role_or_parts t.
Proof. destruct t; simpl; intros H; try discriminate; left; reflexivity. Qed.

Lemma pages_shape_rebuild (t : JsVal) :
  PagesFunction.shape (rebuild t) = PagesFunction.shape t.
Proof. reflexivity. Qed.

Lemma worker_shape_rebuild (t : JsVal) :
  Worker.shape (rebuild t) = Worker.shape t.
Proof. reflexivity. Qed.

Lemma pages_shape_lacks (t : JsVal) :
  lacks_role_or_parts t -> PagesFunction.shape t = false.
Proof.
  unfold PagesFunction.shape. intros [H | H]; rewrite H; simpl.
  - reflexivity.
  - apply andb_false_r.
Qed.

Lemma worker_shape_lacks (t : JsVal) :
  lacks_role_or_parts t -> Worker.shape t = false.
Proof.
  unfold Worker.shape. intros [H | H]; rewrite H; simpl.
  - reflexivity.
  - apply andb_false_r.
Qed.

(** The Pages Function's loop over entries it can read pushes, in order,
    the entries that pass its test. *)
Lemma pages_push_history_readable (turns : list JsVal) :
  readable turns ->
  forall contents cs,
    PagesFunction.push_history turns contents cs
    = (Next (contents ++ map rebuild (filter PagesFunction.shape turns)), cs).
Proof.
  induction 1 as [| t rest Ht _ IH]; intros contents cs; simpl.
  - rewrite app_nil_r. reflexivity.
  - unfold bind, get, PagesFunction.shape. rewrite Ht. simpl.
    destruct (truthy (prop t "role")); simpl.
    + destruct (is_array (prop t "parts")); simpl.
      * rewrite IH, <- app_assoc. reflexivity.
      * apply IH.
    + apply IH.
Qed.

Lemma worker_push_history_readable (turns : list JsVal) :
  readable turns ->
  forall contents cs,
    Worker.push_history turns contents cs
    = (Next (contents ++ map rebuild (filter Worker.shape turns)), cs).
Proof.
  induction 1 as [| t rest Ht _ IH]; intros contents cs; simpl.
  - rewrite app_nil_r. reflexivity.
  - unfold bind, get, Worker.shape. rewrite Ht. simpl.
    destruct (truthy (prop t "role")); simpl.
    + destruct (truthy (prop t "parts")); simpl.
      * rewrite IH, <- app_assoc. reflexivity.
      * apply IH.
    + apply IH.
Qed.

(** Either loop stops at the first entry that is null or undefined. *)
Lemma pages_push_history_null (before after : list JsVal) (t : JsVal) :
  readable before -> nullish t = true ->
  forall contents cs,
    PagesFunction.push_history (before ++ t :: after) contents cs
    = (Throw (EngineError (NullRead "role")), cs).
Proof.
  induction 1 as [| b rest Hb _ IH]; intros Ht contents cs; simpl.
  - unfold bind, get. rewrite Ht. reflexivity.
  - unfold bind, get. rewrite Hb. simpl.
    destruct (truthy (prop b "role")); simpl;
      [destruct (is_array (prop b "parts")); simpl |]; apply IH; exact Ht.
Qed.

Lemma worker_push_history_null (before after : list JsVal) (t : JsVal) :
  readable before -> nullish t = true ->
  forall contents cs,
    Worker.push_history (before ++ t :: after) contents cs
    = (Throw (EngineError (NullRead "role")), cs).
Proof.
  induction 1 as [| b rest Hb _ IH]; intros Ht contents cs; simpl.
  - unfold bind, get. rewrite Ht. reflexivity.
  - unfold bind, get. rewrite Hb. simpl.
    destruct (truthy (prop b "role")); simpl;
      [destruct (truthy (prop b "parts")); simpl |]; apply IH; exact Ht.
Qed.

(** The loops never return a response and never call upstream: they go
    on or throw. *)
Lemma pages_push_history_frame (turns : list JsVal) :
  forall contents cs,
    (exists c, PagesFunction.push_history turns contents cs = (Next c, cs))
    \/ (exists e, PagesFunction.push_history turns contents cs = (Throw e, cs)).
Proof.
  induction turns as [| t rest IH]; intros contents cs; simpl.
  - left. eexists. reflexivity.
  - unfold bind, get. destruct (nullish t); simpl.
    + right. eexists. reflexivity.
    + destruct (truthy (prop t "role")); simpl;
        [destruct (is_array (prop t "parts")); simpl |]; apply IH.
Qed.

Lemma worker_push_history_frame (turns : list JsVal) :
  forall contents cs,
    (exists c, Worker.push_history turns contents cs = (Next c, cs))
    \/ (exists e, Worker.push_history turns contents cs = (Throw e, cs)).
Proof.
  induction turns as [| t rest IH]; intros contents cs; simpl.
  - left. eexists. reflexivity.
  - unfold bind, get. destruct (nullish t); simpl.
    + right. eexists. reflexivity.
    + destruct (truthy (prop t "role")); simpl;
        [destruct (truthy (prop t "parts")); simpl |]; apply IH.
Qed.

Lemma pages_build_contents_frame (message history systemPrompt : JsVal) :
  forall cs,
    (exists c, PagesFunction.build_contents message history systemPrompt cs
               = (Next c, cs))
    \/ (exists e, PagesFunction.build_contents message history systemPrompt cs
                  = (Throw e, cs)).
Proof.
  intros cs. unfold PagesFunction.build_contents, bind.
  destruct history;
    try (left; eexists; reflexivity).
  destruct (pages_push_history_frame (slice_last 10 items)
              (PagesFunction.push_persona systemPrompt []) cs)
    as [[c H] | [e H]]; rewrite H.
  - left. eexists. reflexivity.
  - right. eexists. reflexivity.
Qed.

Lemma worker_build_contents_frame (message history : JsVal) :
  forall cs,
    (exists c, Worker.build_contents message history cs = (Next c, cs))
    \/ (exists e, Worker.build_contents message history cs = (Throw e, cs)).
Proof.
  intros cs. unfold Worker.build_contents, Worker.each_recent, bind.
  destruct history;
    try (right; eexists; reflexivity).
  match goal with
  | |- context [Worker.push_history ?ts ?c cs] =>
      destruct (worker_push_history_frame ts c cs) as [[c' H] | [e H]];
      rewrite H
  end.
  - left. eexists. reflexivity.
  - right. eexists. reflexivity.
Qed.

(* ------------------------------------------------------------------ *)
(** ** Facts about the handlers                                        *)
(* ------------------------------------------------------------------ *)

(** Opening a handler up to its tests. *)
Ltac open_pages :=
  unfold run, PagesFunction.onRequestPost, bind, try_catch, parse_json,
    destructure, return_if, fetch_upstream.

Ltac open_worker :=
  unfold run, Worker.fetch, bind, try_catch, parse_json, destructure,
    return_if, fetch_upstream.

Lemma calls_finish (s : Step Response) (cs : list Outbound) :
  calls (finish (s, cs)) = cs.
Proof. destruct s; reflexivity. Qed.

Lemma completion_finish (s : Step Response) (cs cs' : list Outbound) :
  completion (finish (s, cs)) = completion (finish (s, cs')).
Proof. destruct s; reflexivity. Qed.

Lemma key_present (k : string) : k <> "" -> key_missing (Some k) = false.
Proof. intros H. simpl. apply String.eqb_neq. exact H. Qed.

Lemma key_missing_false (key : option string) :
  key_missing key = false -> exists k, key = Some k /\ k <> "".
Proof.
  destruct key as [k |]; simpl; intros H; [| discriminate].
  exists k. split; [reflexivity | apply String.eqb_neq; exact H].
Qed.

Lemma message_accepted (m : string) :
  m <> "" -> negb (truthy (JStr m)) || negb (is_string (JStr m)) = false.
Proof.
  intros H. simpl. apply (proj2 (String.eqb_neq m "")) in H.
  rewrite H. reflexivity.
Qed.

(** Lines 92-117 make no call and do not throw. *)
Lemma pages_normalize_frame (P : Platform) (code : Z) (body : Payload)
      (cs : list Outbound) :
  PagesFunction.normalize P code body cs
  = (fst (PagesFunction.normalize P code body []), cs).
Proof.
  unfold PagesFunction.normalize, read_json, bind, try_catch, read_text,
    parse_json, new_Response, return_, ret, throw.
  destruct (ok code); simpl.
  - destruct body as [text | m]; simpl; [| reflexivity].
    destruct (JSON_parse P text); simpl; [| reflexivity].
    match goal with |- context [truthy ?r] => destruct (truthy r) end;
      reflexivity.
  - destruct body as [text | m]; simpl; [| reflexivity].
    destruct (constructible code _); simpl; [reflexivity |].
    destruct ((200 <=? code) && (code <=? 599)); reflexivity.
Qed.

Lemma worker_reply_response_frame (P : Platform) (body : Payload)
      (cs : list Outbound) :
  Worker.reply_response P body cs
  = (fst (Worker.reply_response P body []), cs).
Proof.
  unfold Worker.reply_response, read_json, bind, read_text, parse_json, get,
    ret, throw.
  destruct body as [text | m]; simpl; [| reflexivity].
  destruct (JSON_parse P text) as [data |]; simpl; [| reflexivity].
  destruct (nullish data); reflexivity.
Qed.

Lemma pages_after_normalize (P : Platform) (code : Z) (body : Payload)
      (cs : list Outbound) :
  finish (PagesFunction.normalize P code body cs)
  = mkRun (completion (run (PagesFunction.normalize P code body))) cs.
Proof.
  rewrite pages_normalize_frame. unfold run.
  destruct (PagesFunction.normalize P code body []) as [s cs0]. simpl.
  destruct s; reflexivity.
Qed.

Lemma worker_after_reply (P : Platform) (body : Payload) (cs : list Outbound) :
  finish
    (match Worker.reply_response P body cs with
     | (Throw e, cs') =>
         ret (mkResponse 500 Worker.jsonHeaders
                (Json (JObj [("error", JStr (message_of P e))]))) cs'
     | other => other
     end)
  = mkRun
      (match fst (Worker.reply_response P body []) with
       | Next r | Return r => Returned r
       | Throw e =>
           Returned (mkResponse 500 Worker.jsonHeaders
                       (Json (JObj [("error", JStr (message_of P e))])))
       end) cs.
Proof.
  rewrite worker_reply_response_frame.
  destruct (Worker.reply_response P body []) as [s cs0]. simpl.
  destruct s; reflexivity.
Qed.

(** The Pages Function, from a body it accepts to the upstream call. *)
Lemma pages_reaches (P : Platform) (req : Request) (env : Env)
      (body : JsVal) (m k : string) (contents : list JsVal) :
  JSON_parse P (req_text req) = Some body ->
  nullish body = false ->
  prop body "message" = JStr m -> m <> "" ->
  API_KEY_caffine env = Some k -> k <> "" ->
  PagesFunction.build_contents (JStr m)
    (or_default (prop body "history") (JArr []))
    (or_default (prop body "systemPrompt") (JStr "")) []
  = (Next contents, []) ->
  run (PagesFunction.onRequestPost P req env)
  = mkRun (pages_after P (upstream P (PagesFunction.outbound k contents)))
          [PagesFunction.outbound k contents].
Proof.
  intros Hparse Hbody Hmsg Hm Hkey Hk Hbuild.
  open_pages.
  rewrite Hparse. simpl. rewrite Hbody. simpl. rewrite Hmsg.
  rewrite (message_accepted m Hm). simpl.
  rewrite Hkey, (key_present k Hk). simpl.
  rewrite Hbuild. simpl.
  destruct (upstream P (PagesFunction.outbound k contents))
    as [e | code text | code e];
    simpl; [reflexivity | |]; apply pages_after_normalize.
Qed.

(** Whenever the Pages Function has called upstream, the key was set, the
    call is the one of line 71, and the response is decided by what came
    back. *)
Lemma pages_called (P : Platform) (req : Request) (env : Env) (out : Outbound) :
  calls (run (PagesFunction.onRequestPost P req env)) = [out] ->
  exists k contents,
    API_KEY_caffine env = Some k /\ k <> "" /\
    out = PagesFunction.outbound k contents /\
    completion (run (PagesFunction.onRequestPost P req env))
    = pages_after P (upstream P out).
Proof.
  open_pages.
  destruct (JSON_parse P (req_text req)) as [body |]; simpl;
    [| discriminate].
  destruct (nullish body); simpl; [discriminate |].
  destruct (negb (truthy (prop body "message"))
            || negb (is_string (prop body "message"))); simpl;
    [discriminate |].
  destruct (key_missing (API_KEY_caffine env)) eqn:Hkey; simpl;
    [discriminate |].
  apply key_missing_false in Hkey. destruct Hkey as [k [Hkey Hk]].
  rewrite Hkey. simpl.
  match goal with
  | |- context [PagesFunction.build_contents ?a ?b ?c []] =>
      destruct (pages_build_contents_frame a b c []) as [[cn H] | [e H]];
      rewrite H; simpl; [| discriminate]
  end.
  destruct (upstream P (PagesFunction.outbound k cn))
    as [e | code text | code e] eqn:Hup;
    simpl.
  - intros Hc. injection Hc as <-. exists k, cn. rewrite Hup.
    repeat split; try assumption.
  - rewrite pages_after_normalize. simpl.
    intros Hc. injection Hc as <-. exists k, cn. rewrite Hup.
    repeat split; try assumption.
  - rewrite pages_after_normalize. simpl.
    intros Hc. injection Hc as <-. exists k, cn. rewrite Hup.
    repeat split; try assumption.
Qed.

Lemma method_post (req : Request) :
  method req = "POST" ->
  (method req =? "OPTIONS")%string = false
  /\ negb (method req =? "POST")%string = false.
Proof. intros ->. split; reflexivity. Qed.

(** The Worker, from a body it can read to the upstream call. *)
Lemma worker_reaches (P : Platform) (req : Request) (env : Env)
      (body : JsVal) (k : string) (contents : list JsVal) :
  method req = "POST" ->
  JSON_parse P (req_text req) = Some body ->
  nullish body = false ->
  API_KEY_caffine env = Some k -> k <> "" ->
  Worker.build_contents (prop body "message")
    (or_default (prop body "history") (JArr [])) []
  = (Next contents, []) ->
  run (Worker.fetch P req env)
  = mkRun (worker_after P (upstream P (Worker.outbound k contents)))
          [Worker.outbound k contents].
Proof.
  intros Hpost Hparse Hbody Hkey Hk Hbuild.
  destruct (method_post req Hpost) as [Hopt Hnot].
  open_worker.
  rewrite Hopt, Hnot. simpl. rewrite Hparse. simpl. rewrite Hbody. simpl.
  rewrite Hkey, (key_present k Hk). simpl.
  rewrite Hbuild. simpl.
  destruct (upstream P (Worker.outbound k contents))
    as [e | code text | code e];
    simpl; [reflexivity | | reflexivity].
  apply (worker_after_reply P (Reads text)).
Qed.

(** Whenever the Worker has called upstream, the request was a POST, the
    key was set, the call is the one of line 64, and the response is
    decided by what came back. *)
Lemma worker_called (P : Platform) (req : Request) (env : Env) (out : Outbound) :
  calls (run (Worker.fetch P req env)) = [out] ->
  exists k contents,
    method req = "POST" /\
    API_KEY_caffine env = Some k /\ k <> "" /\
    out = Worker.outbound k contents /\
    completion (run (Worker.fetch P req env))
    = worker_after P (upstream P out).
Proof.
  open_worker.
  destruct (method req =? "OPTIONS")%string; simpl; [discriminate |].
  destruct (String.eqb_spec (method req) "POST") as [Hpost | _]; simpl;
    [| discriminate].
  destruct (JSON_parse P (req_text req)) as [body |]; simpl;
    [| discriminate].
  destruct (nullish body); simpl; [discriminate |].
  destruct (key_missing (API_KEY_caffine env)) eqn:Hkey; simpl;
    [discriminate |].
  apply key_missing_false in Hkey. destruct Hkey as [k [Hkey Hk]].
  rewrite Hkey. simpl.
  match goal with
  | |- context [Worker.build_contents ?a ?b []] =>
      destruct (worker_build_contents_frame a b []) as [[cn H] | [e H]];
      rewrite H; simpl; [| discriminate]
  end.
  destruct (upstream P (Worker.outbound k cn))
    as [e | code text | code e] eqn:Hup;
    simpl.
  - intros Hc. injection Hc as <-. exists k, cn. rewrite Hup.
    repeat split; try assumption.
  - rewrite (worker_after_reply P (Reads text)). simpl.
    intros Hc. injection Hc as <-. exists k, cn. rewrite Hup.
    repeat split; try assumption.
  - intros Hc. injection Hc as <-. exists k, cn. rewrite Hup.
    repeat split; try assumption.
Qed.

Lemma pages_push_persona (sp : string) :
  PagesFunction.push_persona (JStr sp) [] = pages_persona sp.
Proof.
  unfold PagesFunction.push_persona, pages_persona. simpl.
  destruct (sp =? "")%string; reflexivity.
Qed.

(** The payload of the Pages Function for a body with a message, an array
    (or no) history whose recent entries can be read, and a string (or no)
    system prompt. *)
Lemma pages_payload (P : Platform) (req : Request) (env : Env)
      (body : JsVal) (m sp k : string) (h : list JsVal) :
  JSON_parse P (req_text req) = Some body ->
  nullish body = false ->
  prop body "message" = JStr m -> m <> "" ->
  or_default (prop body "history") (JArr []) = JArr h ->
  readable (slice_last 10 h) ->
  or_default (prop body "systemPrompt") (JStr "") = JStr sp ->
  API_KEY_caffine env = Some k -> k <> "" ->
  calls (run (PagesFunction.onRequestPost P req env))
  = [PagesFunction.outbound k
       (pages_persona sp ++ forwarded PagesFunction.shape h
        ++ [text_turn "user" (JStr m)])].
Proof.
  intros Hparse Hbody Hmsg Hm Hh Hread Hsp Hkey Hk.
  erewrite pages_reaches; eauto.
  - reflexivity.
  - rewrite Hh, Hsp. unfold PagesFunction.build_contents, bind.
    rewrite (pages_push_history_readable _ Hread).
    rewrite pages_push_persona. unfold ret, forwarded.
    rewrite <- app_assoc. reflexivity.
Qed.

(** The payload of the Worker under the same conditions; the system
    prompt of the body is not read. *)
Lemma worker_payload (P : Platform) (req : Request) (env : Env)
      (body : JsVal) (k : string) (h : list JsVal) :
  method req = "POST" ->
  JSON_parse P (req_text req) = Some body ->
  nullish body = false ->
  or_default (prop body "history") (JArr []) = JArr h ->
  readable (slice_last 10 h) ->
  API_KEY_caffine env = Some k -> k <> "" ->
  calls (run (Worker.fetch P req env))
  = [Worker.outbound k
       (worker_persona ++ forwarded Worker.shape h
        ++ [text_turn "user" (prop body "message")])].
Proof.
  intros Hpost Hparse Hbody Hh Hread Hkey Hk.
  erewrite worker_reaches; eauto.
  - reflexivity.
  - rewrite Hh. unfold Worker.build_contents, Worker.each_recent, bind.
    rewrite (worker_push_history_readable _ Hread).
    unfold ret, forwarded, worker_persona, priming_pair.
    rewrite <- app_assoc. reflexivity.
Qed.

(** A history of well-formed turns goes through either filter whole: the
    history part of the payload is then the trailing window itself. *)
Lemma forwarded_well_formed (h : list JsVal) :
  Forall (fun t => exists r p,
              t = turn r p /\ truthy r = true /\ is_array p = true)
         (slice_last 10 h) ->
  forwarded PagesFunction.shape h = slice_last 10 h
  /\ forwarded Worker.shape h = slice_last 10 h.
Proof.
  unfold forwarded. induction 1 as [| t rest [r [p [-> [Hr Hp]]]] _ [IHp IHw]].
  - split; reflexivity.
  - assert (Htp : truthy p = true) by (destruct p; try discriminate; reflexivity).
    unfold PagesFunction.shape at 1, Worker.shape at 1. simpl.
    rewrite Hr, Hp, Htp. simpl. rewrite rebuild_turn.
    split; f_equal; assumption.
Qed.

(* ------------------------------------------------------------------ *)
(** ** The conversation payload                                        *)
(* ------------------------------------------------------------------ *)

(** C1. For every valid input (a non-empty string message, a history that
    is an array or absent, none of its last ten entries null, a string
    system prompt or none, the key configured), each handler makes one
    upstream call, a POST to the model's address closed by the key, whose
    contents are, in order: the persona priming pair when a persona is
    configured (the caller's non-empty system prompt in the Pages
    Function, the fixed barista prompt in the Worker), then the entries
    among the last ten of the history that pass the handler's shape test,
    in their order, sent as role and parts, then one final user turn
    whose single part holds the message.  At most ten history turns are
    sent. *)
Theorem payload_order (P : Platform) (req : Request) (env : Env)
      (body : JsVal) (m sp k : string) (h : list JsVal) :
  method req = "POST" ->
  JSON_parse P (req_text req) = Some body ->
  nullish body = false ->
  prop body "message" = JStr m -> m <> "" ->
  or_default (prop body "history") (JArr []) = JArr h ->
  readable (last_entries 10 h) ->
  or_default (prop body "systemPrompt") (JStr "") = JStr sp ->
  API_KEY_caffine env = Some k -> k <> "" ->
  (exists out,
      calls (run (PagesFunction.onRequestPost P req env)) = [out]
      /\ out_url out = (ENDPOINT ++ k)%string /\ out_method out = "POST"
      /\ sent_contents out
         = Some ((if (sp =? "")%string then []
                  else [said "user" sp; said "model" PagesFunction.ACK])
                 ++ map resent
                      (filter (fun t => truthy (prop t "role")
                                        && is_array (prop t "parts"))
                              (last_entries 10 h))
                 ++ [said "user" m]))
  /\ (exists out,
      calls (run (Worker.fetch P req env)) = [out]
      /\ out_url out = (ENDPOINT ++ k)%string /\ out_method out = "POST"
      /\ sent_contents out
         = Some ([said "user" Worker.BARISTA_PROMPT; said "model" Worker.ACK]
                 ++ map resent
                      (filter (fun t => truthy (prop t "role")
                                        && truthy (prop t "parts"))
                              (last_entries 10 h))
                 ++ [said "user" m]))
  /\ (length (last_entries 10 h) <= 10)%nat.
Proof.
  intros Hpost Hparse Hbody Hmsg Hm Hh Hread Hsp Hkey Hk.
  rewrite <- slice_last_last_entries in *.
  split; [| split].
  - eexists. split.
    + apply (pages_payload P req env body m sp k h); assumption.
    + split; [reflexivity | split; [reflexivity |]].
      simpl. unfold pages_persona, priming_pair.
      destruct (sp =? "")%string; reflexivity.
  - eexists. split.
    + apply (worker_payload P req env body k h); assumption.
    + split; [reflexivity | split; [reflexivity |]].
      simpl. rewrite Hmsg. reflexivity.
  - apply slice_last_length.
Qed.

Lemma payload_order_witness :
  exists out,
    calls (run (PagesFunction.onRequestPost Twelve.platform (Demo.post "")
                  Demo.env_key))
    = [out]
    /\ out_url out = (ENDPOINT ++ "secret")%string /\ out_method out = "POST"
    /\ sent_contents out
       = Some ([said "user" "You are a barista.";
                said "model" PagesFunction.ACK]
               ++ Twelve.sent_on ++ [said "user" "hi"]).
Proof.
  apply (payload_order Twelve.platform (Demo.post "") Demo.env_key
           Twelve.body "hi" "You are a barista." "secret" Twelve.history);
    try reflexivity; try discriminate.
  repeat constructor.
Defined.

(** C5, as stated, fails twice.  A null entry in the window makes the
    loop throw when it reads the role: the Pages Function ends with the
    exception uncaught, the Worker answers HTTP 500, and neither calls
    upstream.  And an entry that has both a role and parts, the parts
    being no array, is not forwarded by the Pages Function. *)
Lemma history_entries_not_filtered_by_presence :
  run (PagesFunction.onRequestPost (Demo.answering 200 Demo.flight)
         (Demo.post Demo.body_null_entry) Demo.env_key)
  = mkRun (Uncaught (EngineError (NullRead "role"))) []
  /\ run (Worker.fetch (Demo.answering 200 Demo.flight)
            (Demo.post Demo.body_null_entry) Demo.env_key)
     = mkRun (Returned (mkResponse 500 Worker.jsonHeaders
                          (Json (JObj [("error",
                                        JStr "Cannot read properties of null (reading 'role')")]))))
             []
  /\ ~ lacks_role_or_parts (JObj [("role", JStr "user"); ("parts", JStr "hello")])
  /\ calls (run (PagesFunction.onRequestPost (Demo.answering 200 Demo.flight)
                   (Demo.post Demo.body_loose_entry) Demo.env_key))
     = [PagesFunction.outbound "secret" [text_turn "user" (JStr "hi")]].
Proof.
  split; [reflexivity | split; [reflexivity | split; [| reflexivity]]].
  intros [H | H]; discriminate H.
Qed.

(** C5, amended.  For every history array whose last ten entries hold no
    null, the request gets as far as its upstream call, and the contents
    sent are the persona pair, then exactly the entries of those ten that
    pass the handler's test, as role and parts and in their order, then
    the final user turn.  So an entry of the ten is sent on exactly when
    its role is truthy and its parts are an array (Pages Function) or
    truthy (Worker), and every other entry is left out of the payload: in
    particular one that lacks a role or parts, and one that is no object
    (a number, a boolean, a string, an array). *)
Theorem history_entries_filtered (P : Platform) (req : Request) (env : Env)
      (body : JsVal) (m sp k : string) (h : list JsVal) :
  method req = "POST" ->
  JSON_parse P (req_text req) = Some body ->
  nullish body = false ->
  prop body "message" = JStr m -> m <> "" ->
  prop body "history" = JArr h ->
  readable (last_entries 10 h) ->
  or_default (prop body "systemPrompt") (JStr "") = JStr sp ->
  API_KEY_caffine env = Some k -> k <> "" ->
  exists sent_by_pages sent_by_worker,
    (exists out,
        calls (run (PagesFunction.onRequestPost P req env)) = [out]
        /\ sent_contents out
           = Some ((if (sp =? "")%string then []
                    else [said "user" sp; said "model" PagesFunction.ACK])
                   ++ sent_by_pages ++ [said "user" m]))
    /\ (exists out,
        calls (run (Worker.fetch P req env)) = [out]
        /\ sent_contents out
           = Some ([said "user" Worker.BARISTA_PROMPT;
                    said "model" Worker.ACK]
                   ++ sent_by_worker ++ [said "user" m]))
    /\ sent_by_pages
       = map resent
           (filter (fun t => truthy (prop t "role")
                             && is_array (prop t "parts"))
                   (last_entries 10 h))
    /\ sent_by_worker
       = map resent
           (filter (fun t => truthy (prop t "role") && truthy (prop t "parts"))
                   (last_entries 10 h))
    /\ forall t, In t (last_entries 10 h) ->
         (In (resent t) sent_by_pages
          <-> truthy (prop t "role") = true /\ is_array (prop t "parts") = true)
         /\ (In (resent t) sent_by_worker
             <-> truthy (prop t "role") = true /\ truthy (prop t "parts") = true)
         /\ (lacks_role_or_parts t \/ is_object t = false ->
             ~ In (resent t) sent_by_pages
             /\ ~ In (resent t) sent_by_worker).
Proof.
  intros Hpost Hparse Hbody Hmsg Hm Hh Hread Hsp Hkey Hk.
  assert (Hh' : or_default (prop body "history") (JArr []) = JArr h)
    by (rewrite Hh; reflexivity).
  assert (Hin : forall test t,
             (forall u, test (resent u) = test u) ->
             In t (last_entries 10 h) ->
             (In (resent t) (map resent (filter test (last_entries 10 h)))
              <-> test t = true)).
  { intros test t Htest Ht. rewrite in_map_iff. split.
    - intros [u [Hu Hf]]. apply filter_In in Hf.
      rewrite <- Htest, <- Hu, Htest. tauto.
    - intros Hpass. exists t. split; [reflexivity |].
      apply filter_In. tauto. }
  eexists. eexists.
  split; [| split; [| split; [reflexivity | split; [reflexivity |]]]].
  - rewrite <- slice_last_last_entries in *. eexists. split.
    + apply (pages_payload P req env body m sp k h); assumption.
    + simpl. unfold pages_persona, priming_pair.
      destruct (sp =? "")%string; reflexivity.
  - rewrite <- slice_last_last_entries in *. eexists. split.
    + apply (worker_payload P req env body k h); assumption.
    + simpl. rewrite Hmsg. reflexivity.
  - intros t Ht.
    pose proof (Hin (fun t => truthy (prop t "role")
                              && is_array (prop t "parts")) t
                    (fun u => eq_refl) Ht) as Hp.
    pose proof (Hin (fun t => truthy (prop t "role")
                              && truthy (prop t "parts")) t
                    (fun u => eq_refl) Ht) as Hw.
    cbv beta in Hp, Hw. rewrite andb_true_iff in Hp, Hw.
    split; [exact Hp | split; [exact Hw |]].
    intros Hlack.
    assert (Hl : lacks_role_or_parts t)
      by (destruct Hlack as [Hl | Ho]; [exact Hl | apply non_object_lacks, Ho]).
    split; intros Hf.
    + apply Hp in Hf. destruct Hl as [Hl | Hl]; rewrite Hl in Hf;
        destruct Hf; discriminate.
    + apply Hw in Hf. destruct Hl as [Hl | Hl]; rewrite Hl in Hf;
        destruct Hf; discriminate.
Qed.

Lemma history_entries_filtered_witness :
  exists sent_by_pages sent_by_worker,
    (exists out,
        calls (run (PagesFunction.onRequestPost Twelve.platform (Demo.post "")
                      Demo.env_key))
        = [out]
        /\ sent_contents out
           = Some ((if ("You are a barista." =? "")%string then []
                    else [said "user" "You are a barista.";
                          said "model" PagesFunction.ACK])
                   ++ sent_by_pages ++ [said "user" "hi"]))
    /\ (exists out,
        calls (run (Worker.fetch Twelve.platform (Demo.post "") Demo.env_key))
        = [out]
        /\ sent_contents out
           = Some ([said "user" Worker.BARISTA_PROMPT;
                    said "model" Worker.ACK]
                   ++ sent_by_worker ++ [said "user" "hi"]))
    /\ sent_by_pages = Twelve.sent_on
    /\ sent_by_worker = Twelve.sent_on
    /\ forall t, In t (last_entries 10 Twelve.history) ->
         (In (resent t) sent_by_pages
          <-> truthy (prop t "role") = true /\ is_array (prop t "parts") = true)
         /\ (In (resent t) sent_by_worker
             <-> truthy (prop t "role") = true /\ truthy (prop t "parts") = true)
         /\ (lacks_role_or_parts t \/ is_object t = false ->
             ~ In (resent t) sent_by_pages
             /\ ~ In (resent t) sent_by_worker).
Proof.
  apply (history_entries_filtered Twelve.platform (Demo.post "") Demo.env_key
           Twelve.body "hi" "You are a barista." "secret" Twelve.history);
    try reflexivity; try discriminate.
  repeat constructor.
Defined.

(* ------------------------------------------------------------------ *)
(** ** The persona                                                     *)
(* ------------------------------------------------------------------ *)

(** C7, as stated, fails on the Pages Function: without a system prompt
    its payload is the final user turn alone, primed with nothing. *)
Lemma pages_sends_no_default_persona :
  calls (run (PagesFunction.onRequestPost (Demo.answering 200 Demo.flight)
                (Demo.post Demo.body_hi) Demo.env_key))
  = [PagesFunction.outbound "secret" [text_turn "user" (JStr "hi")]]
  /\ forall persona, ~ primed_with persona [text_turn "user" (JStr "hi")].
Proof.
  split; [reflexivity |].
  intros persona [ack [rest H]]. discriminate H.
Qed.

(** C7, amended.  For every valid request in which systemPrompt is
    absent, the Worker primes the payload with its fixed barista prompt
    and acknowledgment, and the Pages Function sends no priming pair: its
    payload is the forwarded history and the final user turn. *)
Theorem absent_system_prompt (P : Platform) (req : Request) (env : Env)
      (body : JsVal) (m k : string) (h : list JsVal) :
  method req = "POST" ->
  JSON_parse P (req_text req) = Some body ->
  nullish body = false ->
  prop body "message" = JStr m -> m <> "" ->
  or_default (prop body "history") (JArr []) = JArr h ->
  readable (slice_last 10 h) ->
  prop body "systemPrompt" = JUndefined ->
  API_KEY_caffine env = Some k -> k <> "" ->
  (exists contents,
      calls (run (Worker.fetch P req env)) = [Worker.outbound k contents]
      /\ primed_with Worker.BARISTA_PROMPT contents)
  /\ calls (run (PagesFunction.onRequestPost P req env))
     = [PagesFunction.outbound k
          (forwarded PagesFunction.shape h ++ [text_turn "user" (JStr m)])].
Proof.
  intros Hpost Hparse Hbody Hmsg Hm Hh Hread Hsp Hkey Hk.
  split.
  - eexists. split.
    + apply (worker_payload P req env body k h); assumption.
    + exists Worker.ACK. eexists. reflexivity.
  - apply (pages_payload P req env body m "" k h); try assumption.
    rewrite Hsp. reflexivity.
Qed.

Lemma absent_system_prompt_witness :
  exists contents,
    calls (run (Worker.fetch (Demo.answering 200 Demo.flight)
                  (Demo.post Demo.body_hi) Demo.env_key))
    = [Worker.outbound "secret" contents]
    /\ primed_with Worker.BARISTA_PROMPT contents.
Proof.
  apply (absent_system_prompt (Demo.answering 200 Demo.flight) (Demo.post Demo.body_hi)
           Demo.env_key (JObj [("message", JStr "hi")]) "hi" "secret" []);
    try reflexivity; try discriminate.
  constructor.
Defined.

(* ------------------------------------------------------------------ *)
(** ** Upstream failures                                               *)
(* ------------------------------------------------------------------ *)

(** C3, as stated, fails on the Worker: an upstream 429 with a JSON error
    body is answered with status 200 and the fallback reply, without
    details. *)
Lemma worker_hides_upstream_status :
  ok 429 = false
  /\ calls (run (Worker.fetch (Demo.answering 429 Demo.quota)
                   (Demo.post Demo.body_hi) Demo.env_key))
     = [Worker.outbound "secret"
          (worker_persona ++ [text_turn "user" (JStr "hi")])]
  /\ ~ surfaces_upstream_error (Demo.answering 429 Demo.quota) 429 Demo.quota
         (run (Worker.fetch (Demo.answering 429 Demo.quota)
                 (Demo.post Demo.body_hi) Demo.env_key)).
Proof.
  split; [reflexivity | split; [reflexivity |]].
  intros [resp [Hc [Hs _]]]. injection Hc as <-. discriminate Hs.
Qed.

Lemma constructible_error_status (code : Z) (body : Body) :
  ok code = false -> 200 <= code <= 599 -> code <> 304 ->
  constructible code body = true.
Proof.
  unfold ok, constructible, null_body_status. intros Hok Hrange Hnot.
  destruct (Z.leb_spec 200 code); [| lia].
  destruct (Z.leb_spec code 599); [| lia].
  destruct (Z.leb_spec code 299); [discriminate Hok |].
  destruct (Z.eqb_spec code 101); [lia |].
  destruct (Z.eqb_spec code 204); [lia |].
  destruct (Z.eqb_spec code 205); [lia |].
  destruct (Z.eqb_spec code 304); [lia |].
  reflexivity.
Qed.

(** At the four statuses written in chat.js the constructor takes the
    body, so [json_response] is what it builds there. *)
Lemma json_response_constructed (code : Z) (v : JsVal) (cs : list Outbound) :
  code = 200 \/ code = 400 \/ code = 500 \/ code = 502 ->
  new_Response (Json v) code PagesFunction.corsHeaders cs
  = (Next (PagesFunction.json_response code v), cs).
Proof. intros [-> | [-> | [-> | ->]]]; reflexivity. Qed.

(** The upstream status 304 is one no response with a body can carry:
    the constructor of line 97 throws, after the call and outside any
    try. *)
Lemma pages_throws_at_304 :
  run (PagesFunction.onRequestPost (Demo.answering 304 Demo.quota)
         (Demo.post Demo.body_hi) Demo.env_key)
  = mkRun (Uncaught (EngineError (StatusWithoutBody 304)))
          [PagesFunction.outbound "secret" [text_turn "user" (JStr "hi")]].
Proof. reflexivity. Qed.

(** C3, amended.  In the Pages Function, for every upstream response whose
    status is not 2xx and is one a response with a body can carry (from
    200 to 599 and not 304), and whose body reads as text, the response
    to the caller carries that same status, and its body has the error
    text, the status again, and in [details] the upstream body parsed as
    JSON, or [{ raw: text }] when it is not JSON. *)
Theorem pages_surfaces_upstream_error (P : Platform) (req : Request) (env : Env)
      (out : Outbound) (code : Z) (text : string) :
  calls (run (PagesFunction.onRequestPost P req env)) = [out] ->
  upstream P out = Answered code text ->
  ok code = false ->
  200 <= code <= 599 -> code <> 304 ->
  completion (run (PagesFunction.onRequestPost P req env))
  = Returned (mkResponse code PagesFunction.corsHeaders
                (Json (JObj [("error", JStr "Gemini API error");
                             ("status", JNum (inject_Z code));
                             ("details", upstream_details P text)])))
  /\ surfaces_upstream_error P code text
       (run (PagesFunction.onRequestPost P req env)).
Proof.
  intros Hcalls Hup Hok Hrange Hnot.
  destruct (pages_called P req env out Hcalls) as [k [cn [_ [_ [_ Hc]]]]].
  assert (H : completion (run (PagesFunction.onRequestPost P req env))
              = Returned (mkResponse code PagesFunction.corsHeaders
                  (Json (JObj [("error", JStr "Gemini API error");
                               ("status", JNum (inject_Z code));
                               ("details", upstream_details P text)])))).
  { rewrite Hc, Hup.
    unfold pages_after, run, PagesFunction.normalize, bind, read_text,
      new_Response.
    rewrite Hok. simpl.
    rewrite (constructible_error_status code _ Hok Hrange Hnot).
    reflexivity. }
  split; [exact H |].
  eexists. split; [exact H | split; reflexivity].
Qed.

Lemma pages_surfaces_upstream_error_witness :
  surfaces_upstream_error (Demo.answering 429 Demo.quota) 429 Demo.quota
    (run (PagesFunction.onRequestPost (Demo.answering 429 Demo.quota)
            (Demo.post Demo.body_hi) Demo.env_key)).
Proof.
  apply (pages_surfaces_upstream_error (Demo.answering 429 Demo.quota)
           (Demo.post Demo.body_hi) Demo.env_key
           (PagesFunction.outbound "secret" [text_turn "user" (JStr "hi")])
           429 Demo.quota);
    try reflexivity; try lia.
Defined.

Lemma opt_prop_readable (v : JsVal) (name : string) :
  nullish v = false -> opt_prop v name = prop v name.
Proof. unfold opt_prop. intros ->. reflexivity. Qed.

Lemma js_or_falsy (a b : JsVal) : truthy a = false -> js_or a b = b.
Proof. unfold js_or. intros ->. reflexivity. Qed.

Lemma js_or_truthy (a b : JsVal) : truthy a = true -> js_or a b = a.
Proof. unfold js_or. intros ->. reflexivity. Qed.

Lemma js_or_absent (b : JsVal) : js_or JUndefined b = b.
Proof. reflexivity. Qed.

(** C6, as stated, fails where the candidate has a finishReason that is
    falsy: for the empty string the response says UNKNOWN, which is not
    the candidate's finishReason. *)
Lemma blank_finish_reason_is_unknown :
  opt_prop (candidate_of
              (JObj [("candidates", JArr [JObj [("finishReason", JStr "")]])]))
           "finishReason"
  = JStr ""
  /\ completion (run (PagesFunction.onRequestPost
                        (Edges.answering 200 Edges.blank_reason)
                        (Demo.post Demo.body_hi) Demo.env_key))
     = Returned (mkResponse 502 PagesFunction.corsHeaders
                   (Json (JObj [("error", JStr "No reply from Gemini");
                                ("finishReason", JStr "UNKNOWN")]))).
Proof. split; reflexivity. Qed.

(** C6, amended.  In the Pages Function, for every upstream 2xx response
    whose JSON body has no first-candidate first-part text that is
    truthy, the response is HTTP 502 with the error No reply from Gemini
    and a finishReason field: the candidate's finishReason when that is
    truthy, and UNKNOWN when it is absent or falsy (the empty string,
    null, zero, false). *)
Theorem no_reply_is_502 (P : Platform) (req : Request) (env : Env)
      (out : Outbound) (code : Z) (text : string) (data : JsVal) :
  calls (run (PagesFunction.onRequestPost P req env)) = [out] ->
  upstream P out = Answered code text ->
  ok code = true ->
  JSON_parse P text = Some data ->
  truthy (reply_of data) = false ->
  completion (run (PagesFunction.onRequestPost P req env))
  = Returned (mkResponse 502 PagesFunction.corsHeaders
                (Json (JObj [("error", JStr "No reply from Gemini");
                             ("finishReason",
                              if truthy (opt_prop (candidate_of data)
                                                  "finishReason")
                              then opt_prop (candidate_of data) "finishReason"
                              else JStr "UNKNOWN")]))).
Proof.
  intros Hcalls Hup Hok Hparse Hreply.
  destruct (pages_called P req env out Hcalls) as [k [cn [_ [_ [_ Hc]]]]].
  rewrite Hc, Hup.
  unfold pages_after, run, PagesFunction.normalize, read_json, bind,
    try_catch, read_text, parse_json.
  rewrite Hok. simpl. rewrite Hparse. simpl.
  unfold reply_of, candidate_of in Hreply. rewrite Hreply. reflexivity.
Qed.

Lemma no_reply_is_502_witness :
  completion (run (PagesFunction.onRequestPost (Demo.answering 200 Demo.blocked)
                     (Demo.post Demo.body_hi) Demo.env_key))
  = Returned (mkResponse 502 PagesFunction.corsHeaders
                (Json (JObj [("error", JStr "No reply from Gemini");
                             ("finishReason", JStr "SAFETY")]))).
Proof.
  apply (no_reply_is_502 (Demo.answering 200 Demo.blocked) (Demo.post Demo.body_hi)
           Demo.env_key
           (PagesFunction.outbound "secret" [text_turn "user" (JStr "hi")])
           200 Demo.blocked
           (JObj [("candidates",
                   JArr [JObj [("finishReason", JStr "SAFETY")]])]));
    reflexivity.
Defined.

(** C9, as stated, fails: when the upstream cannot be reached the Worker
    answers 500 with the transport error, not 200 with the fallback. *)
Lemma worker_unreachable_is_500 :
  upstream Demo.unreachable
    (Worker.outbound "secret" (worker_persona ++ [text_turn "user" (JStr "hi")]))
  = Rejected "connection refused"
  /\ run (Worker.fetch Demo.unreachable (Demo.post Demo.body_hi) Demo.env_key)
     = mkRun (Returned (mkResponse 500 Worker.jsonHeaders
                          (Json (JObj [("error", JStr "connection refused")]))))
             [Worker.outbound "secret"
                (worker_persona ++ [text_turn "user" (JStr "hi")])]
  /\ ~ answers_with 200
        (run (Worker.fetch Demo.unreachable (Demo.post Demo.body_hi)
                Demo.env_key)).
Proof.
  split; [reflexivity | split; [reflexivity |]].
  intros [resp [Hc Hs]]. injection Hc as <-. discriminate Hs.
Qed.

(** C9, amended.  Once the Worker has called upstream: a response of any
    status whose body is JSON, not null, is answered with HTTP 200 and
    a reply field holding the extracted text, or the fixed fallback string
    when there is none; anything thrown (the upstream cannot be reached,
    its body cannot be read or is not JSON, its body is null) is answered
    with HTTP 500 and the error's message. *)
Theorem worker_masks_missing_reply (P : Platform) (req : Request) (env : Env)
      (out : Outbound) :
  calls (run (Worker.fetch P req env)) = [out] ->
  completion (run (Worker.fetch P req env))
  = Returned
      (match upstream P out with
       | Rejected m =>
           mkResponse 500 Worker.jsonHeaders (Json (JObj [("error", JStr m)]))
       | Unread code m =>
           mkResponse 500 Worker.jsonHeaders (Json (JObj [("error", JStr m)]))
       | Answered code text =>
           match JSON_parse P text with
           | None =>
               mkResponse 500 Worker.jsonHeaders
                 (Json (JObj [("error", JStr (fault_message P BadJson))]))
           | Some data =>
               if nullish data then
                 mkResponse 500 Worker.jsonHeaders
                   (Json (JObj [("error",
                                 JStr (fault_message P (NullRead "candidates")))]))
               else
                 mkResponse 200 Worker.jsonHeaders
                   (Json (JObj [("reply",
                                 js_or (reply_of data) (JStr Worker.FALLBACK))]))
           end
       end).
Proof.
  intros Hcalls.
  destruct (worker_called P req env out Hcalls) as [k [cn [_ [_ [_ [_ Hc]]]]]].
  rewrite Hc. unfold worker_after.
  destruct (upstream P out) as [m | code text | code m];
    [reflexivity | | reflexivity].
  unfold Worker.reply_response, read_json, bind, read_text, parse_json, get.
  simpl.
  destruct (JSON_parse P text) as [data |]; simpl; [| reflexivity].
  destruct (nullish data) eqn:Hn; simpl; [reflexivity |].
  unfold reply_of, candidate_of. rewrite (opt_prop_readable data _ Hn).
  reflexivity.
Qed.

Lemma worker_masks_missing_reply_witness :
  completion (run (Worker.fetch (Demo.answering 429 Demo.quota)
                     (Demo.post Demo.body_hi) Demo.env_key))
  = Returned (mkResponse 200 Worker.jsonHeaders
                (Json (JObj [("reply", JStr Worker.FALLBACK)]))).
Proof.
  apply (worker_masks_missing_reply (Demo.answering 429 Demo.quota)
           (Demo.post Demo.body_hi) Demo.env_key
           (Worker.outbound "secret"
              (worker_persona ++ [text_turn "user" (JStr "hi")]))).
  reflexivity.
Defined.

(* ------------------------------------------------------------------ *)
(** ** Rejected requests                                               *)
(* ------------------------------------------------------------------ *)

(** C8, as stated, fails on the Worker: a POST whose body is not JSON is
    answered 500 with the parser's message, not 400. *)
Lemma worker_invalid_body_is_500 :
  JSON_parse Demo.unreachable (req_text (Demo.post "not json")) = None
  /\ run (Worker.fetch Demo.unreachable (Demo.post "not json") Demo.env_key)
     = mkRun (Returned (mkResponse 500 Worker.jsonHeaders
                          (Json (JObj [("error", JStr "Unexpected token")]))))
             []
  /\ ~ answers_with 400
        (run (Worker.fetch Demo.unreachable (Demo.post "not json")
                Demo.env_key)).
Proof.
  split; [reflexivity | split; [reflexivity |]].
  intros [resp [Hc Hs]]. injection Hc as <-. discriminate Hs.
Qed.

(** C8, amended.  For every POST request whose body is not valid JSON no
    upstream call is made; the Pages Function answers HTTP 400 with the
    error Invalid JSON body, and the Worker answers HTTP 500 with the
    message of the parse error. *)
Theorem invalid_body_rejected (P : Platform) (req : Request) (env : Env) :
  method req = "POST" ->
  JSON_parse P (req_text req) = None ->
  run (PagesFunction.onRequestPost P req env)
  = mkRun (Returned (PagesFunction.json_response 400
                       (JObj [("error", JStr "Invalid JSON body")])))
          []
  /\ run (Worker.fetch P req env)
     = mkRun (Returned (mkResponse 500 Worker.jsonHeaders
                          (Json (JObj [("error",
                                        JStr (fault_message P BadJson))]))))
             [].
Proof.
  intros Hpost Hparse. split.
  - open_pages.
    rewrite Hparse. reflexivity.
  - destruct (method_post req Hpost) as [Hopt Hnot].
    open_worker.
    rewrite Hopt, Hnot. simpl. rewrite Hparse. reflexivity.
Qed.

Lemma invalid_body_rejected_witness :
  run (PagesFunction.onRequestPost Demo.unreachable (Demo.post "not json")
         Demo.env_key)
  = mkRun (Returned (PagesFunction.json_response 400
                       (JObj [("error", JStr "Invalid JSON body")])))
          [].
Proof.
  apply (invalid_body_rejected Demo.unreachable (Demo.post "not json")
           Demo.env_key);
    reflexivity.
Defined.

(** The Pages Function rejects a body that is not null and whose message
    is absent, empty or no string, before any upstream call. *)
Lemma pages_rejects_bad_message (P : Platform) (req : Request) (env : Env)
      (body : JsVal) :
  JSON_parse P (req_text req) = Some body ->
  nullish body = false ->
  truthy (prop body "message") = false
  \/ is_string (prop body "message") = false ->
  run (PagesFunction.onRequestPost P req env)
  = mkRun (Returned (PagesFunction.json_response 400
                       (JObj [("error", JStr PagesFunction.MISSING_MESSAGE)])))
          [].
Proof.
  intros Hparse Hbody Hmsg.
  open_pages.
  rewrite Hparse. simpl. rewrite Hbody. simpl.
  replace (negb (truthy (prop body "message"))
           || negb (is_string (prop body "message"))) with true.
  - reflexivity.
  - destruct Hmsg as [H | H]; rewrite H; simpl;
      [reflexivity | rewrite orb_true_r; reflexivity].
Qed.

(** C2 on the code.  The Worker does not look at the message: a body
    without one is sent upstream, its final user turn holding no text, and
    the upstream's answer is relayed with HTTP 200.  The Pages Function
    rejects such bodies ([pages_rejects_bad_message]) save one: the JSON
    body null has no message either, and there the destructuring throws
    before the check is reached. *)
Example missing_message_not_rejected :
  prop (JObj []) "message" = JUndefined
  /\ run (Worker.fetch (Demo.answering 200 Demo.flight) (Demo.post "{}")
            Demo.env_key)
     = mkRun (Returned (mkResponse 200 Worker.jsonHeaders
                          (Json (JObj [("reply", JStr "Try our Coffee Flight!")]))))
             [Worker.outbound "secret"
                (worker_persona ++ [text_turn "user" JUndefined])]
  /\ run (PagesFunction.onRequestPost (Demo.answering 200 Demo.flight)
            (Demo.post "null") Demo.env_key)
     = mkRun (Uncaught (EngineError NullDestructure)) [].
Proof. repeat split. Qed.

(* ------------------------------------------------------------------ *)
(** ** The preflight                                                   *)
(* ------------------------------------------------------------------ *)

(** The Pages Function answers every preflight with HTTP 204, the three
    CORS headers and no body. *)
Lemma pages_preflight (req : Request) (env : Env) :
  run (PagesFunction.onRequestOptions req env)
  = mkRun (Returned (mkResponse 204 preflightHeaders NoBody)) [].
Proof. reflexivity. Qed.

(** C4 on the code.  The Worker answers every OPTIONS request, whatever
    its headers and body, with the three CORS headers and no body, and
    with the status of a response built without one: 200, where the
    Pages Function ([pages_preflight]) answers 204. *)
Theorem worker_preflight_is_200 (P : Platform) (hs : list (string * string))
      (text : string) (env : Env) :
  run (Worker.fetch P (mkRequest "OPTIONS" hs text) env)
  = mkRun (Returned (mkResponse 200 preflightHeaders NoBody)) [].
Proof. reflexivity. Qed.

(* ------------------------------------------------------------------ *)
(** ** The API key                                                     *)
(* ------------------------------------------------------------------ *)

(** With the key set, the Pages Function either answers without calling
    upstream, the same way for every key, or makes the call of line 71
    with contents that do not depend on the key. *)
Lemma pages_run_by_key (P : Platform) (req : Request) :
  (exists c, forall k, k <> "" ->
      run (PagesFunction.onRequestPost P req (mkEnv (Some k))) = mkRun c [])
  \/ (exists contents, forall k, k <> "" ->
      run (PagesFunction.onRequestPost P req (mkEnv (Some k)))
      = mkRun (pages_after P (upstream P (PagesFunction.outbound k contents)))
              [PagesFunction.outbound k contents]).
Proof.
  destruct (JSON_parse P (req_text req)) as [body |] eqn:Hparse.
  2: { left. eexists. intros k Hk.
       open_pages.
       rewrite Hparse. reflexivity. }
  destruct (nullish body) eqn:Hbody.
  { left. eexists. intros k Hk.
    open_pages.
    rewrite Hparse. simpl. rewrite Hbody. reflexivity. }
  destruct (negb (truthy (prop body "message"))
            || negb (is_string (prop body "message"))) eqn:Hmsg.
  { left. eexists. intros k Hk.
    open_pages.
    rewrite Hparse. simpl. rewrite Hbody. simpl. rewrite Hmsg. reflexivity. }
  destruct (pages_build_contents_frame (prop body "message")
              (or_default (prop body "history") (JArr []))
              (or_default (prop body "systemPrompt") (JStr "")) [])
    as [[cn Hb] | [e Hb]].
  - right. exists cn. intros k Hk.
    apply orb_false_elim in Hmsg. destruct Hmsg as [Htruthy Hstring].
    destruct (prop body "message") as [| | b | q | m | items | fields | neg] eqn:Hm;
      try discriminate Hstring.
    apply (pages_reaches P req (mkEnv (Some k)) body m k cn);
      try assumption; try reflexivity.
    intros ->. discriminate Htruthy.
  - left. eexists. intros k Hk.
    open_pages.
    rewrite Hparse. simpl. rewrite Hbody. simpl. rewrite Hmsg. simpl.
    apply (proj2 (String.eqb_neq k "")) in Hk. rewrite Hk. simpl.
    rewrite Hb. reflexivity.
Qed.

Lemma worker_run_by_key (P : Platform) (req : Request) :
  (exists c, forall k, k <> "" ->
      run (Worker.fetch P req (mkEnv (Some k))) = mkRun c [])
  \/ (exists contents, forall k, k <> "" ->
      run (Worker.fetch P req (mkEnv (Some k)))
      = mkRun (worker_after P (upstream P (Worker.outbound k contents)))
              [Worker.outbound k contents]).
Proof.
  destruct (method req =? "OPTIONS")%string eqn:Hopt.
  { left. eexists. intros k Hk. open_worker.
    rewrite Hopt. reflexivity. }
  destruct (String.eqb_spec (method req) "POST") as [Hpost | Hpost].
  2: { left. eexists. intros k Hk. open_worker.
       rewrite Hopt. simpl.
       apply (proj2 (String.eqb_neq _ _)) in Hpost. rewrite Hpost.
       reflexivity. }
  destruct (method_post req Hpost) as [_ Hnot].
  destruct (JSON_parse P (req_text req)) as [body |] eqn:Hparse.
  2: { left. eexists. intros k Hk.
       open_worker.
       rewrite Hopt, Hnot. simpl. rewrite Hparse. reflexivity. }
  destruct (nullish body) eqn:Hbody.
  { left. eexists. intros k Hk.
    open_worker.
    rewrite Hopt, Hnot. simpl. rewrite Hparse. simpl. rewrite Hbody.
    reflexivity. }
  destruct (worker_build_contents_frame (prop body "message")
              (or_default (prop body "history") (JArr [])) [])
    as [[cn Hb] | [e Hb]].
  - right. exists cn. intros k Hk.
    apply (worker_reaches P req (mkEnv (Some k)) body k cn);
      try assumption; reflexivity.
  - left. eexists. intros k Hk.
    open_worker.
    rewrite Hopt, Hnot. simpl. rewrite Hparse. simpl. rewrite Hbody. simpl.
    apply (proj2 (String.eqb_neq k "")) in Hk. rewrite Hk. simpl.
    rewrite Hb. reflexivity.
Qed.

(** C10, as stated, fails.  Both handlers copy what the upstream call
    came back with into the response: the Pages Function the transport
    error's message into details (line 89) and the upstream body into
    details (line 97), the Worker the message of whatever it caught (line
    89).  When the transport error names the address it could not reach,
    the key, which closes that address, is in the body the caller
    gets. *)
Lemma key_quoted_in_response :
  completion (run (PagesFunction.onRequestPost Edges.quoting
                     (Demo.post Demo.body_hi) (mkEnv (Some "secret"))))
  = Returned
      (mkResponse 502 PagesFunction.corsHeaders
         (Json (JObj [("error", JStr "Failed to reach Gemini API");
                      ("details",
                       JStr "request to https://generativelanguage.googleapis.com/v1beta/models/gemma-3-27b-it:generateContent?key=secret failed")])))
  /\ completion (run (Worker.fetch Edges.quoting
                        (Demo.post Demo.body_hi) (mkEnv (Some "secret"))))
     = Returned
         (mkResponse 500 Worker.jsonHeaders
            (Json (JObj [("error",
                          JStr "request to https://generativelanguage.googleapis.com/v1beta/models/gemma-3-27b-it:generateContent?key=secret failed")]))).
Proof. split; reflexivity. Qed.

(** C10, amended.  For every request and any two configured keys that
    the upstream answers alike, whatever the method, headers and body of
    the call, both handlers give the caller the same response, and the
    calls they make agree in method, headers and body: the handlers
    themselves put the key nowhere but in the URL of the outbound call,
    which is the fixed endpoint followed by the key. *)
Theorem key_only_in_url (P : Platform) (req : Request) (k1 k2 : string) :
  k1 <> "" -> k2 <> "" ->
  (forall m h b,
      upstream P (mkOutbound (ENDPOINT ++ k1)%string m h b)
      = upstream P (mkOutbound (ENDPOINT ++ k2)%string m h b)) ->
  (completion (run (PagesFunction.onRequestPost P req (mkEnv (Some k1))))
   = completion (run (PagesFunction.onRequestPost P req (mkEnv (Some k2))))
   /\ map (fun o => (out_method o, out_headers o, out_body o))
        (calls (run (PagesFunction.onRequestPost P req (mkEnv (Some k1)))))
      = map (fun o => (out_method o, out_headers o, out_body o))
          (calls (run (PagesFunction.onRequestPost P req (mkEnv (Some k2)))))
   /\ Forall (fun o => out_url o = (ENDPOINT ++ k1)%string)
        (calls (run (PagesFunction.onRequestPost P req (mkEnv (Some k1))))))
  /\ (completion (run (Worker.fetch P req (mkEnv (Some k1))))
      = completion (run (Worker.fetch P req (mkEnv (Some k2))))
      /\ map (fun o => (out_method o, out_headers o, out_body o))
           (calls (run (Worker.fetch P req (mkEnv (Some k1)))))
         = map (fun o => (out_method o, out_headers o, out_body o))
             (calls (run (Worker.fetch P req (mkEnv (Some k2)))))
      /\ Forall (fun o => out_url o = (ENDPOINT ++ k1)%string)
           (calls (run (Worker.fetch P req (mkEnv (Some k1)))))).
Proof.
  intros Hk1 Hk2 Hup. split.
  - destruct (pages_run_by_key P req) as [[c H] | [cn H]];
      rewrite (H k1 Hk1), (H k2 Hk2); simpl.
    + repeat split. constructor.
    + unfold PagesFunction.outbound.
      change (api_url k1) with (ENDPOINT ++ k1)%string.
      change (api_url k2) with (ENDPOINT ++ k2)%string.
      rewrite Hup. repeat split. repeat constructor.
  - destruct (worker_run_by_key P req) as [[c H] | [cn H]];
      rewrite (H k1 Hk1), (H k2 Hk2); simpl.
    + repeat split. constructor.
    + unfold Worker.outbound.
      change (api_url k1) with (ENDPOINT ++ k1)%string.
      change (api_url k2) with (ENDPOINT ++ k2)%string.
      rewrite Hup. repeat split. repeat constructor.
Qed.

Lemma key_only_in_url_witness :
  completion (run (PagesFunction.onRequestPost (Demo.answering 429 Demo.quota)
                     (Demo.post Demo.body_hi) (mkEnv (Some "secret"))))
  = completion (run (PagesFunction.onRequestPost (Demo.answering 429 Demo.quota)
                       (Demo.post Demo.body_hi) (mkEnv (Some "other")))).
Proof.
  apply (key_only_in_url (Demo.answering 429 Demo.quota) (Demo.post Demo.body_hi)
           "secret" "other");
    try discriminate; reflexivity.
Defined.

(* ------------------------------------------------------------------ *)
(** ** Every path of the Pages Function                                *)
(* ------------------------------------------------------------------ *)

(** The loops throw nothing but the failed read of the role, and what
    they hand on is the filtered list. *)
Lemma pages_push_history_result (turns : list JsVal) :
  forall contents cs,
    PagesFunction.push_history turns contents cs
    = (Next (contents ++ map rebuild (filter PagesFunction.shape turns)), cs)
    \/ PagesFunction.push_history turns contents cs
       = (Throw (EngineError (NullRead "role")), cs).
Proof.
  induction turns as [| t rest IH]; intros contents cs; simpl.
  - left. rewrite app_nil_r. reflexivity.
  - unfold bind, get, PagesFunction.shape. destruct (nullish t); simpl.
    + right. reflexivity.
    + destruct (truthy (prop t "role")); simpl;
        [destruct (is_array (prop t "parts")); simpl |]; try apply IH.
      destruct (IH (contents ++ [turn (prop t "role") (prop t "parts")]) cs)
        as [H | H]; rewrite H; [left | right]; try reflexivity.
      rewrite <- app_assoc. reflexivity.
Qed.

Lemma worker_push_history_result (turns : list JsVal) :
  forall contents cs,
    Worker.push_history turns contents cs
    = (Next (contents ++ map rebuild (filter Worker.shape turns)), cs)
    \/ Worker.push_history turns contents cs
       = (Throw (EngineError (NullRead "role")), cs).
Proof.
  induction turns as [| t rest IH]; intros contents cs; simpl.
  - left. rewrite app_nil_r. reflexivity.
  - unfold bind, get, Worker.shape. destruct (nullish t); simpl.
    + right. reflexivity.
    + destruct (truthy (prop t "role")); simpl;
        [destruct (truthy (prop t "parts")); simpl |]; try apply IH.
      destruct (IH (contents ++ [turn (prop t "role") (prop t "parts")]) cs)
        as [H | H]; rewrite H; [left | right]; try reflexivity.
      rewrite <- app_assoc. reflexivity.
Qed.

Lemma pages_build_contents_result (message history systemPrompt : JsVal)
      (cs : list Outbound) :
  PagesFunction.build_contents message history systemPrompt cs
  = (Next (PagesFunction.push_persona systemPrompt []
           ++ history_part PagesFunction.shape history
           ++ [text_turn "user" message]), cs)
  \/ PagesFunction.build_contents message history systemPrompt cs
     = (Throw (EngineError (NullRead "role")), cs).
Proof.
  unfold PagesFunction.build_contents, bind, history_part, forwarded.
  destruct history; try (left; unfold ret; reflexivity).
  destruct (pages_push_history_result (slice_last 10 items)
              (PagesFunction.push_persona systemPrompt []) cs) as [H | H];
    rewrite H; [left | right]; try reflexivity.
  unfold ret. rewrite <- app_assoc. reflexivity.
Qed.

(** Lines 92-117, case by case. *)
Lemma pages_normalize_cases (P : Platform) (code : Z) (body : Payload) :
  (exists r,
      completion (run (PagesFunction.normalize P code body)) = Returned r
      /\ headers r = PagesFunction.corsHeaders
      /\ ((ok code = false /\ status r = code)
          \/ status r = 502 \/ status r = 200))
  \/ (ok code = false
      /\ exists e,
           completion (run (PagesFunction.normalize P code body))
           = Uncaught e
           /\ match body with
              | Fails m => e = FetchError m
              | Reads _ =>
                  ((code < 200 \/ 599 < code)
                   /\ e = EngineError (StatusOutOfRange code))
                  \/ (code = 304
                      /\ e = EngineError (StatusWithoutBody code))
              end).
Proof.
  unfold run, PagesFunction.normalize, read_json, read_text, bind,
    try_catch, parse_json, return_, ret, throw.
  destruct (ok code) eqn:Hok; simpl.
  - left. destruct body as [text | m]; simpl.
    + destruct (JSON_parse P text); simpl.
      * match goal with |- context [truthy ?r] => destruct (truthy r) end;
          simpl; eexists; repeat split; auto.
      * eexists; repeat split; auto.
    + eexists; repeat split; auto.
  - destruct body as [text | m]; simpl.
    + unfold new_Response, ret, throw.
      match goal with |- context [constructible code ?b] =>
        destruct (constructible code b) eqn:Hc
      end; simpl.
      * left. eexists; repeat split; auto.
      * right. split; [reflexivity |].
        unfold constructible, null_body_status in Hc.
        unfold ok in Hok.
        destruct (Z.leb_spec 200 code); simpl in *;
          [| eexists; split; [reflexivity | left; split; [lia | reflexivity]]].
        destruct (Z.leb_spec code 599); simpl in *;
          [| eexists; split; [reflexivity | left; split; [lia | reflexivity]]].
        eexists; split; [reflexivity | right; split; [| reflexivity]].
        destruct (Z.leb_spec code 299); [discriminate Hok |].
        destruct (Z.eqb_spec code 101); [lia |].
        destruct (Z.eqb_spec code 204); [lia |].
        destruct (Z.eqb_spec code 205); [lia |].
        destruct (Z.eqb_spec code 304); [assumption | discriminate Hc].
    + right. split; [reflexivity |]. eexists. split; reflexivity.
Qed.

(** Every way a request to the Pages Function ends. *)
Lemma pages_run_cases (P : Platform) (req : Request) (env : Env) :
  run (PagesFunction.onRequestPost P req env)
  = mkRun (Returned (PagesFunction.json_response 400
                       (JObj [("error", JStr "Invalid JSON body")]))) []
  \/ ((exists body,
          JSON_parse P (req_text req) = Some body /\ nullish body = true)
      /\ run (PagesFunction.onRequestPost P req env)
         = mkRun (Uncaught (EngineError NullDestructure)) [])
  \/ run (PagesFunction.onRequestPost P req env)
     = mkRun (Returned (PagesFunction.json_response 400
                          (JObj [("error", JStr PagesFunction.MISSING_MESSAGE)]))) []
  \/ run (PagesFunction.onRequestPost P req env)
     = mkRun (Returned (PagesFunction.json_response 500
                          (JObj [("error", JStr PagesFunction.MISSING_KEY)]))) []
  \/ ((exists body h,
          JSON_parse P (req_text req) = Some body
          /\ prop body "history" = JArr h
          /\ ~ readable (slice_last 10 h))
      /\ run (PagesFunction.onRequestPost P req env)
         = mkRun (Uncaught (EngineError (NullRead "role"))) [])
  \/ exists body m k,
       JSON_parse P (req_text req) = Some body
       /\ prop body "message" = JStr m /\ m <> ""
       /\ API_KEY_caffine env = Some k /\ k <> ""
       /\ let contents :=
            PagesFunction.push_persona
              (or_default (prop body "systemPrompt") (JStr "")) []
            ++ history_part PagesFunction.shape
                 (or_default (prop body "history") (JArr []))
            ++ [text_turn "user" (JStr m)] in
          run (PagesFunction.onRequestPost P req env)
          = mkRun (pages_after P (upstream P (PagesFunction.outbound k contents)))
                  [PagesFunction.outbound k contents].
Proof.
  destruct (JSON_parse P (req_text req)) as [body |] eqn:Hparse.
  2: { left. open_pages. rewrite Hparse. reflexivity. }
  destruct (nullish body) eqn:Hbody.
  { right. left. split; [exists body; split; first [assumption | reflexivity] |].
    open_pages. rewrite Hparse. simpl. rewrite Hbody. reflexivity. }
  destruct (negb (truthy (prop body "message"))
            || negb (is_string (prop body "message"))) eqn:Hmsg.
  { do 2 right. left. open_pages. rewrite Hparse. simpl. rewrite Hbody. simpl.
    rewrite Hmsg. reflexivity. }
  destruct (key_missing (API_KEY_caffine env)) eqn:Hkey.
  { do 3 right. left. open_pages. rewrite Hparse. simpl. rewrite Hbody. simpl.
    rewrite Hmsg. simpl. rewrite Hkey. reflexivity. }
  apply orb_false_elim in Hmsg. destruct Hmsg as [Htruthy Hstring].
  destruct (prop body "message") as [| | b | q | m | items | fields | neg] eqn:Hm;
    try discriminate Hstring.
  assert (Hne : m <> "") by (intros ->; discriminate Htruthy).
  apply key_missing_false in Hkey. destruct Hkey as [k [Hkey Hk]].
  destruct (pages_build_contents_result (JStr m)
              (or_default (prop body "history") (JArr []))
              (or_default (prop body "systemPrompt") (JStr "")) [])
    as [Hb | Hb].
  - do 5 right. exists body, m, k.
    split; [first [reflexivity | assumption] |].
    split; [first [reflexivity | assumption] | split; [exact Hne |]].
    split; [exact Hkey | split; [exact Hk |]].
    apply (pages_reaches P req env body m k); assumption.
  - do 4 right. left. split.
    + destruct (prop body "history") as [| | b | q | s | h | fs | neg] eqn:Hh;
        try discriminate Hb.
      exists body, h. repeat split; try assumption.
      intros Hread. revert Hb. simpl.
      unfold PagesFunction.build_contents, bind.
      rewrite (pages_push_history_readable _ Hread). discriminate.
    + open_pages. rewrite Hparse. simpl. rewrite Hbody. simpl.
      rewrite Hm. rewrite (message_accepted m Hne). simpl.
      rewrite Hkey, (key_present k Hk). simpl. rewrite Hb. reflexivity.
Qed.

(** Every way a request to the Pages Function ends once the upstream call
    has come back. *)
Lemma pages_after_cases (P : Platform) (res : FetchResult) :
  (exists r,
      pages_after P res = Returned r
      /\ headers r = PagesFunction.corsHeaders
      /\ ((exists code text,
              res = Answered code text /\ ok code = false /\ status r = code)
          \/ status r = 502 \/ status r = 200))
  \/ (exists e, pages_after P res = Uncaught e /\ thrown_after_call res e).
Proof.
  destruct res as [m | code text | code m]; simpl.
  - left. eexists. repeat split. right. left. reflexivity.
  - destruct (pages_normalize_cases P code (Reads text))
      as [[r [Hr [Hh Hs]]] | [Hok [e [He Hc]]]].
    + left. exists r. repeat split; try assumption.
      destruct Hs as [[Hok Hs] | Hs]; [left | right; exact Hs].
      exists code, text. repeat split; assumption.
    + right. exists e. repeat split; assumption.
  - destruct (pages_normalize_cases P code (Fails m))
      as [[r [Hr [Hh Hs]]] | [Hok [e [He Hc]]]].
    + left. exists r. repeat split; try assumption.
      destruct Hs as [[Hok Hs] | Hs]; [| right; exact Hs].
      exfalso. revert Hr.
      unfold run, PagesFunction.normalize, read_json, read_text, bind,
        try_catch, return_, ret, throw.
      rewrite Hok. simpl. discriminate.
    + right. exists e. repeat split; assumption.
Qed.

(** A result the Pages Function can relay lets nothing escape. *)
Lemma relayable_not_thrown (res : FetchResult) (e : JsError) :
  relayable res -> thrown_after_call res e -> False.
Proof.
  destruct res as [m | code text | code m]; simpl.
  - intros _ H. exact H.
  - intros [Hok | [Hr Hn]] [Hno H]; [congruence |].
    destruct H as [[H _] | [H _]]; lia.
  - intros Hok [Hno _]. congruence.
Qed.

(** X1.  Missing credential.  A request that passes the message check
    while API_KEY_caffine is unset or empty is answered HTTP 500 with the
    error naming the variable, and no upstream call is made. *)
Theorem pages_missing_key (P : Platform) (req : Request) (env : Env)
      (body : JsVal) (m : string) :
  JSON_parse P (req_text req) = Some body ->
  nullish body = false ->
  prop body "message" = JStr m -> m <> "" ->
  key_missing (API_KEY_caffine env) = true ->
  run (PagesFunction.onRequestPost P req env)
  = mkRun (Returned (PagesFunction.json_response 500
                       (JObj [("error", JStr PagesFunction.MISSING_KEY)])))
          [].
Proof.
  intros Hparse Hbody Hmsg Hm Hkey. open_pages.
  rewrite Hparse. simpl. rewrite Hbody. simpl. rewrite Hmsg.
  rewrite (message_accepted m Hm). simpl. rewrite Hkey. reflexivity.
Qed.

Lemma pages_missing_key_witness :
  run (PagesFunction.onRequestPost (Demo.answering 200 Demo.flight)
         (Demo.post Demo.body_hi) (mkEnv None))
  = mkRun (Returned (PagesFunction.json_response 500
                       (JObj [("error", JStr PagesFunction.MISSING_KEY)])))
          [].
Proof.
  apply (pages_missing_key (Demo.answering 200 Demo.flight)
           (Demo.post Demo.body_hi) (mkEnv None)
           (JObj [("message", JStr "hi")]) "hi");
    try reflexivity; discriminate.
Defined.

(** X2.  Upstream unreachable.  When the one upstream call is rejected,
    the Pages Function answers HTTP 502 with the transport error's message
    in details, and does not call again. *)
Theorem pages_unreachable_is_502 (P : Platform) (req : Request) (env : Env)
      (out : Outbound) (msg : string) :
  calls (run (PagesFunction.onRequestPost P req env)) = [out] ->
  upstream P out = Rejected msg ->
  run (PagesFunction.onRequestPost P req env)
  = mkRun (Returned (PagesFunction.json_response 502
                       (JObj [("error", JStr "Failed to reach Gemini API");
                              ("details", JStr msg)])))
          [out].
Proof.
  intros Hcalls Hup.
  destruct (pages_called P req env out Hcalls) as [k [cn [_ [_ [_ Hc]]]]].
  rewrite Hup in Hc. simpl in Hc.
  destruct (run (PagesFunction.onRequestPost P req env)) as [c cs].
  simpl in *. subst. reflexivity.
Qed.

Lemma pages_unreachable_is_502_witness :
  run (PagesFunction.onRequestPost Demo.unreachable (Demo.post Demo.body_hi)
         Demo.env_key)
  = mkRun (Returned (PagesFunction.json_response 502
                       (JObj [("error", JStr "Failed to reach Gemini API");
                              ("details", JStr "connection refused")])))
          [PagesFunction.outbound "secret" [text_turn "user" (JStr "hi")]].
Proof.
  apply (pages_unreachable_is_502 Demo.unreachable (Demo.post Demo.body_hi)
           Demo.env_key
           (PagesFunction.outbound "secret" [text_turn "user" (JStr "hi")])
           "connection refused");
    reflexivity.
Defined.

(** X3.  Malformed upstream response.  An upstream 2xx answer whose body
    is not JSON is answered HTTP 502 with the error Failed to parse Gemini
    response. *)
Theorem pages_unparsable_upstream_is_502 (P : Platform) (req : Request)
      (env : Env) (out : Outbound) (code : Z) (text : string) :
  calls (run (PagesFunction.onRequestPost P req env)) = [out] ->
  upstream P out = Answered code text ->
  ok code = true ->
  JSON_parse P text = None ->
  completion (run (PagesFunction.onRequestPost P req env))
  = Returned (PagesFunction.json_response 502
                (JObj [("error", JStr "Failed to parse Gemini response")])).
Proof.
  intros Hcalls Hup Hok Hparse.
  destruct (pages_called P req env out Hcalls) as [k [cn [_ [_ [_ Hc]]]]].
  rewrite Hc, Hup.
  unfold pages_after, run, PagesFunction.normalize, read_json, read_text,
    bind, try_catch, parse_json, ret.
  rewrite Hok. simpl. rewrite Hparse. reflexivity.
Qed.

Lemma pages_unparsable_upstream_is_502_witness :
  completion (run (PagesFunction.onRequestPost (Demo.answering 200 "<html>")
                     (Demo.post Demo.body_hi) Demo.env_key))
  = Returned (PagesFunction.json_response 502
                (JObj [("error", JStr "Failed to parse Gemini response")])).
Proof.
  apply (pages_unparsable_upstream_is_502 (Demo.answering 200 "<html>")
           (Demo.post Demo.body_hi) Demo.env_key
           (PagesFunction.outbound "secret" [text_turn "user" (JStr "hi")])
           200 "<html>");
    reflexivity.
Defined.

(** X4.  Success.  An upstream 2xx answer whose first candidate's first
    part has a non-empty string as its text is answered HTTP 200, with the
    CORS headers, and that string, unchanged, as the only field, reply. *)
Theorem pages_reply_relayed (P : Platform) (req : Request) (env : Env)
      (out : Outbound) (code : Z) (text : string) (data : JsVal)
      (t : string) :
  calls (run (PagesFunction.onRequestPost P req env)) = [out] ->
  upstream P out = Answered code text ->
  ok code = true ->
  JSON_parse P text = Some data ->
  reply_of data = JStr t -> t <> "" ->
  completion (run (PagesFunction.onRequestPost P req env))
  = Returned (mkResponse 200
                [("Access-Control-Allow-Origin", "*");
                 ("Access-Control-Allow-Methods", "POST, OPTIONS");
                 ("Access-Control-Allow-Headers", "Content-Type");
                 ("Content-Type", "application/json")]
                (Json (JObj [("reply", JStr t)]))).
Proof.
  intros Hcalls Hup Hok Hparse Hreply Ht.
  destruct (pages_called P req env out Hcalls) as [k [cn [_ [_ [_ Hc]]]]].
  rewrite Hc, Hup.
  unfold pages_after, run, PagesFunction.normalize, read_json, read_text,
    bind, try_catch, parse_json, ret.
  rewrite Hok. simpl. rewrite Hparse. simpl.
  unfold reply_of, candidate_of in Hreply. rewrite Hreply. simpl.
  destruct (String.eqb_spec t ""); [contradiction |]. reflexivity.
Qed.

Lemma pages_reply_relayed_witness :
  completion (run (PagesFunction.onRequestPost (Demo.answering 200 Demo.flight)
                     (Demo.post Demo.body_hi) Demo.env_key))
  = Returned (mkResponse 200
                [("Access-Control-Allow-Origin", "*");
                 ("Access-Control-Allow-Methods", "POST, OPTIONS");
                 ("Access-Control-Allow-Headers", "Content-Type");
                 ("Content-Type", "application/json")]
                (Json (JObj [("reply", JStr "Try our Coffee Flight!")]))).
Proof.
  apply (pages_reply_relayed (Demo.answering 200 Demo.flight)
           (Demo.post Demo.body_hi) Demo.env_key
           (PagesFunction.outbound "secret" [text_turn "user" (JStr "hi")])
           200 Demo.flight
           (JObj [("candidates",
                   JArr [JObj [("content",
                                JObj [("parts",
                                       JArr [JObj [("text", JStr "Try our Coffee Flight!")]])])]])]));
    try reflexivity; discriminate.
Defined.

(** X5.  Whatever the request and whatever the upstream does, a response
    of the Pages Function carries the three CORS headers and the JSON
    content type, and its status is 200, 400, 500 or 502, or else the
    non-2xx status the upstream answered with. *)
Theorem pages_response_envelope (P : Platform) (req : Request) (env : Env)
      (r : Response) :
  completion (run (PagesFunction.onRequestPost P req env)) = Returned r ->
  headers r = PagesFunction.corsHeaders
  /\ (pages_own_status (status r)
      \/ exists out text,
           calls (run (PagesFunction.onRequestPost P req env)) = [out]
           /\ upstream P out = Answered (status r) text
           /\ ok (status r) = false).
Proof.
  unfold pages_own_status.
  destruct (pages_run_cases P req env)
    as [H | [[_ H] | [H | [H | [[_ H] | H]]]]];
    [| | | | | destruct H as (body & m & k & _ & _ & _ & _ & _ & H)];
    cbv zeta in H; rewrite H; simpl; intros Hr;
    try discriminate Hr;
    try (injection Hr as <-; split; [reflexivity | left; simpl; tauto]).
  match type of Hr with pages_after P (upstream P ?o) = _ =>
    destruct (pages_after_cases P (upstream P o))
      as [[r' [Hr' [Hh Hs]]] | [e [He _]]];
    set (out := o) in *
  end.
  2: { rewrite He in Hr. discriminate Hr. }
  rewrite Hr' in Hr. injection Hr as <-. split; [exact Hh |].
  destruct Hs as [[code [text [Hup [Hok Hs]]]] | Hs].
  - right. exists out, text. subst code. repeat split; assumption.
  - left. tauto.
Qed.

Lemma pages_response_envelope_witness :
  headers (PagesFunction.json_response 429
             (JObj [("error", JStr "Gemini API error");
                    ("status", JNum (inject_Z 429));
                    ("details", upstream_details (Demo.answering 429 Demo.quota)
                                  Demo.quota)]))
  = PagesFunction.corsHeaders.
Proof.
  apply (pages_response_envelope (Demo.answering 429 Demo.quota)
           (Demo.post Demo.body_hi) Demo.env_key).
  reflexivity.
Defined.

(** X6.  The exceptions that escape the Pages Function, all of them.
    Before any upstream call: the destructuring of a null body and the
    read of the role of a null history entry.  After the one call, on a
    non-2xx answer only: the failure of reading the upstream body, and
    the refusal of the response constructor to carry the upstream's
    status, a RangeError outside 200..599 and a TypeError at 304. *)
Theorem pages_uncaught_causes (P : Platform) (req : Request) (env : Env)
      (e : JsError) :
  completion (run (PagesFunction.onRequestPost P req env)) = Uncaught e ->
  (calls (run (PagesFunction.onRequestPost P req env)) = []
   /\ (e = EngineError NullDestructure \/ e = EngineError (NullRead "role")))
  \/ (exists out,
        calls (run (PagesFunction.onRequestPost P req env)) = [out]
        /\ match upstream P out with
           | Rejected _ => False
           | Unread code m => ok code = false /\ e = FetchError m
           | Answered code _ =>
               ok code = false
               /\ (((code < 200 \/ 599 < code)
                    /\ e = EngineError (StatusOutOfRange code))
                   \/ (code = 304
                       /\ e = EngineError (StatusWithoutBody code)))
           end).
Proof.
  destruct (pages_run_cases P req env)
    as [H | [[_ H] | [H | [H | [[_ H] | H]]]]];
    [| | | | | destruct H as (body & m & k & _ & _ & _ & _ & _ & H)];
    cbv zeta in H; rewrite H; simpl; intros He;
    try discriminate He;
    try (injection He as <-; left; split; [reflexivity | tauto]).
  right. eexists. split; [reflexivity |].
  match type of He with pages_after P ?res = _ =>
    destruct (pages_after_cases P res) as [[r [Hr _]] | [e' [He' Hc]]]
  end.
  - rewrite Hr in He. discriminate He.
  - rewrite He' in He. injection He as <-. exact Hc.
Qed.

Lemma pages_uncaught_causes_witness :
  (calls (run (PagesFunction.onRequestPost (Demo.answering 304 Demo.quota)
                 (Demo.post Demo.body_hi) Demo.env_key)) = []
   /\ (EngineError (StatusWithoutBody 304) = EngineError NullDestructure
       \/ EngineError (StatusWithoutBody 304) = EngineError (NullRead "role")))
  \/ (exists out,
        calls (run (PagesFunction.onRequestPost (Demo.answering 304 Demo.quota)
                      (Demo.post Demo.body_hi) Demo.env_key)) = [out]
        /\ match upstream (Demo.answering 304 Demo.quota) out with
           | Rejected _ => False
           | Unread code m =>
               ok code = false
               /\ EngineError (StatusWithoutBody 304) = FetchError m
           | Answered code _ =>
               ok code = false
               /\ (((code < 200 \/ 599 < code)
                    /\ EngineError (StatusWithoutBody 304)
                       = EngineError (StatusOutOfRange code))
                   \/ (code = 304
                       /\ EngineError (StatusWithoutBody 304)
                          = EngineError (StatusWithoutBody code)))
           end).
Proof.
  apply (pages_uncaught_causes (Demo.answering 304 Demo.quota)
           (Demo.post Demo.body_hi) Demo.env_key).
  reflexivity.
Defined.

(** X7.  A body that is not null, with a history that is no array or
    whose last ten entries hold no null, always gets a response from the
    Pages Function, as long as what the upstream does is a transport
    failure, a 2xx answer, or a non-2xx answer whose body can be read and
    whose status is from 200 to 599 and not 304. *)
Theorem pages_always_responds (P : Platform) (req : Request) (env : Env)
      (body : JsVal) :
  JSON_parse P (req_text req) = Some body ->
  nullish body = false ->
  (forall h, prop body "history" = JArr h -> readable (last_entries 10 h)) ->
  (forall out,
      match upstream P out with
      | Rejected _ => True
      | Unread code _ => ok code = true
      | Answered code _ =>
          ok code = true \/ (200 <= code <= 599 /\ code <> 304)
      end) ->
  exists r, completion (run (PagesFunction.onRequestPost P req env)) = Returned r.
Proof.
  intros Hparse Hbody Hread Hup.
  destruct (pages_run_cases P req env)
    as [H | [[Hc H] | [H | [H | [[Hc H] | H]]]]];
    [| | | | | destruct H as (body' & m & k & _ & _ & _ & _ & _ & H)];
    cbv zeta in H; try (rewrite H; simpl; eexists; reflexivity).
  - exfalso. destruct Hc as [b [Hb Hn]]. congruence.
  - exfalso. destruct Hc as [b [h [Hb [Hh Hnot]]]].
    assert (b = body) by congruence. subst b.
    apply Hnot. rewrite slice_last_last_entries. apply (Hread h Hh).
  - rewrite H. simpl.
    match goal with |- context [pages_after P (upstream P ?o)] =>
      destruct (pages_after_cases P (upstream P o))
        as [[r [Hr _]] | [e [_ Hc]]];
      [exists r; exact Hr
      | exfalso; apply (relayable_not_thrown (upstream P o) e);
        [apply (Hup o) | exact Hc]]
    end.
Qed.

Lemma pages_always_responds_witness :
  exists r,
    completion (run (PagesFunction.onRequestPost Demo.unreachable
                       (Demo.post Demo.body_loose_entry) Demo.env_key))
    = Returned r.
Proof.
  apply (pages_always_responds Demo.unreachable
           (Demo.post Demo.body_loose_entry) Demo.env_key
           (JObj [("message", JStr "hi");
                  ("history", JArr [JObj [("role", JStr "user");
                                          ("parts", JStr "hello")]])]));
    try reflexivity.
  all: try (intros out; exact I).
  intros h Hh. injection Hh as <-. repeat constructor.
Defined.

Lemma history_part_length (test : JsVal -> bool) (history : JsVal) :
  (length (history_part test history) <= 10)%nat.
Proof.
  destruct history; simpl; try lia.
  unfold forwarded. rewrite length_map.
  eapply Nat.le_trans; [apply filter_length_le | apply slice_last_length].
Qed.

Lemma push_persona_length (systemPrompt : JsVal) :
  (length (PagesFunction.push_persona systemPrompt []) <= 2)%nat.
Proof.
  unfold PagesFunction.push_persona.
  destruct (truthy systemPrompt); simpl; lia.
Qed.

(** X8.  A history that is present and no array (a string, a number, an
    object, null) is passed over by the Pages Function as if it were
    absent: the request is not rejected and the payload is the persona
    pair, if any, and the final user turn. *)
Theorem pages_history_not_array_ignored (P : Platform) (req : Request)
      (env : Env) (body : JsVal) (m k : string) :
  JSON_parse P (req_text req) = Some body ->
  nullish body = false ->
  prop body "message" = JStr m -> m <> "" ->
  is_array (prop body "history") = false ->
  API_KEY_caffine env = Some k -> k <> "" ->
  calls (run (PagesFunction.onRequestPost P req env))
  = [PagesFunction.outbound k
       (PagesFunction.push_persona
          (or_default (prop body "systemPrompt") (JStr "")) []
        ++ [text_turn "user" (JStr m)])].
Proof.
  intros Hparse Hbody Hmsg Hm Hh Hkey Hk.
  erewrite pages_reaches; eauto.
  - reflexivity.
  - destruct (prop body "history"); try discriminate Hh; reflexivity.
Qed.

Lemma pages_history_not_array_ignored_witness :
  calls (run (PagesFunction.onRequestPost (Cases.answering 200 Demo.flight)
                (Demo.post Cases.body_history_text) Demo.env_key))
  = [PagesFunction.outbound "secret" [text_turn "user" (JStr "hi")]].
Proof.
  apply (pages_history_not_array_ignored (Cases.answering 200 Demo.flight)
           (Demo.post Cases.body_history_text) Demo.env_key
           (JObj [("message", JStr "hi"); ("history", JStr "earlier")])
           "hi" "secret");
    try reflexivity; discriminate.
Defined.

(** X9.  The Pages Function calls upstream at most once per request, and
    a call it makes is the POST of line 71, determined by the request
    body and the key.  The key is set and closes the fixed URL, the one
    header is the JSON content type, the generation and safety settings
    are the fixed ones, and the contents are: when the system prompt is
    truthy, a user turn holding it and the model's acknowledgment; then,
    when the history is an array, those of its last ten entries that have
    a truthy role and an array as parts, sent as role and parts; then a
    user turn holding the body's message, a non-empty string.  At most
    twelve turns precede the final one. *)
Theorem pages_call_shape (P : Platform) (req : Request) (env : Env) :
  calls (run (PagesFunction.onRequestPost P req env)) = []
  \/ exists body k m,
       JSON_parse P (req_text req) = Some body
       /\ prop body "message" = JStr m /\ m <> ""
       /\ API_KEY_caffine env = Some k /\ k <> ""
       /\ let sp := or_default (prop body "systemPrompt") (JStr "") in
          let persona :=
            if truthy sp
            then [JObj [("role", JStr "user");
                        ("parts", JArr [JObj [("text", sp)]])];
                  said "model" PagesFunction.ACK]
            else [] in
          let earlier :=
            match or_default (prop body "history") (JArr []) with
            | JArr h =>
                map resent
                  (filter (fun t => truthy (prop t "role")
                                    && is_array (prop t "parts"))
                          (last_entries 10 h))
            | _ => []
            end in
          (length (persona ++ earlier) <= 12)%nat
          /\ calls (run (PagesFunction.onRequestPost P req env))
             = [mkOutbound (ENDPOINT ++ k)%string "POST"
                  [("Content-Type", "application/json")]
                  (Json (JObj [("contents",
                                JArr (persona ++ earlier ++ [said "user" m]));
                               ("generationConfig",
                                JObj [("temperature", JNum (7 # 10));
                                      ("topK", JNum (40 # 1));
                                      ("topP", JNum (95 # 100));
                                      ("maxOutputTokens", JNum (512 # 1))]);
                               ("safetySettings",
                                JArr [JObj [("category",
                                             JStr "HARM_CATEGORY_HARASSMENT");
                                            ("threshold",
                                             JStr "BLOCK_MEDIUM_AND_ABOVE")];
                                      JObj [("category",
                                             JStr "HARM_CATEGORY_HATE_SPEECH");
                                            ("threshold",
                                             JStr "BLOCK_MEDIUM_AND_ABOVE")]])]))].
Proof.
  destruct (pages_run_cases P req env)
    as [H | [[_ H] | [H | [H | [[_ H] | H]]]]];
    [| | | | | destruct H as (body & m & k & Hparse & Hmsg & Hm & Hkey & Hk & H)];
    cbv zeta in H; rewrite H; simpl; try (left; reflexivity).
  right. exists body, k, m. repeat (split; [assumption |]). cbv zeta.
  assert (Hp : PagesFunction.push_persona
                 (or_default (prop body "systemPrompt") (JStr "")) []
               = if truthy (or_default (prop body "systemPrompt") (JStr ""))
                 then [JObj [("role", JStr "user");
                             ("parts",
                              JArr [JObj [("text",
                                           or_default (prop body "systemPrompt")
                                             (JStr ""))]])];
                       said "model" PagesFunction.ACK]
                 else []).
  { unfold PagesFunction.push_persona.
    destruct (truthy (or_default (prop body "systemPrompt") (JStr "")));
      reflexivity. }
  assert (He : history_part PagesFunction.shape
                 (or_default (prop body "history") (JArr []))
               = match or_default (prop body "history") (JArr []) with
                 | JArr h =>
                     map resent
                       (filter (fun t => truthy (prop t "role")
                                         && is_array (prop t "parts"))
                               (last_entries 10 h))
                 | _ => []
                 end).
  { unfold history_part, forwarded.
    destruct (or_default (prop body "history") (JArr [])); try reflexivity.
    rewrite slice_last_last_entries. reflexivity. }
  rewrite <- Hp, <- He. split; [| reflexivity].
  rewrite length_app.
  pose proof (push_persona_length
                (or_default (prop body "systemPrompt") (JStr ""))).
  pose proof (history_part_length PagesFunction.shape
                (or_default (prop body "history") (JArr []))).
  lia.
Qed.

(* ------------------------------------------------------------------ *)
(** ** Every path of the Worker                                        *)
(* ------------------------------------------------------------------ *)

Lemma worker_build_contents_result (message history : JsVal)
      (cs : list Outbound) :
  (exists h,
      history = JArr h
      /\ Worker.build_contents message history cs
         = (Next (worker_persona ++ forwarded Worker.shape h
                  ++ [text_turn "user" message]), cs))
  \/ (exists f,
      Worker.build_contents message history cs = (Throw (EngineError f), cs)).
Proof.
  unfold Worker.build_contents, Worker.each_recent, bind.
  destruct history; try (right; eexists; reflexivity).
  match goal with
  | |- context [Worker.push_history ?ts ?c cs] =>
      destruct (worker_push_history_result ts c cs) as [H | H]; rewrite H
  end.
  - left. eexists. split; [reflexivity |].
    unfold ret, forwarded, worker_persona, priming_pair.
    rewrite <- app_assoc. reflexivity.
  - right. eexists. reflexivity.
Qed.

Lemma worker_after_cases (P : Platform) (res : FetchResult) :
  exists r,
    worker_after P res = Returned r
    /\ headers r = Worker.jsonHeaders
    /\ (status r = 200 \/ status r = 500).
Proof.
  destruct res as [m | code text | code m]; simpl.
  - eexists. repeat split. right. reflexivity.
  - unfold Worker.reply_response, read_json, read_text, bind, parse_json,
      get, ret, throw.
    simpl. destruct (JSON_parse P text) as [data |]; simpl.
    + destruct (nullish data); simpl; eexists; repeat split; auto.
    + eexists; repeat split; auto.
  - eexists. repeat split. right. reflexivity.
Qed.

(** Every way a request to the Worker ends. *)
Lemma worker_run_cases (P : Platform) (req : Request) (env : Env) :
  (method req = "OPTIONS"
   /\ run (Worker.fetch P req env)
      = mkRun (Returned (mkResponse 200 preflightHeaders NoBody)) [])
  \/ (method req <> "OPTIONS" /\ method req <> "POST"
      /\ run (Worker.fetch P req env)
         = mkRun (Returned (mkResponse 405
                              [("content-type", "text/plain;charset=UTF-8")]
                              (Text "Method Not Allowed"))) [])
  \/ (method req = "POST"
      /\ exists msg,
           run (Worker.fetch P req env)
           = mkRun (Returned (mkResponse 500 Worker.jsonHeaders
                                (Json (JObj [("error", JStr msg)])))) [])
  \/ (method req = "POST"
      /\ exists body k h,
           JSON_parse P (req_text req) = Some body
           /\ API_KEY_caffine env = Some k /\ k <> ""
           /\ or_default (prop body "history") (JArr []) = JArr h
           /\ let contents :=
                worker_persona ++ forwarded Worker.shape h
                ++ [text_turn "user" (prop body "message")] in
              run (Worker.fetch P req env)
              = mkRun (worker_after P (upstream P (Worker.outbound k contents)))
                      [Worker.outbound k contents]).
Proof.
  destruct (String.eqb_spec (method req) "OPTIONS") as [Hopt | Hopt].
  { left. split; [exact Hopt |]. open_worker. rewrite Hopt. reflexivity. }
  destruct (String.eqb_spec (method req) "POST") as [Hpost | Hpost].
  2: { right. left. repeat split; try assumption. open_worker.
       apply (proj2 (String.eqb_neq _ _)) in Hopt, Hpost.
       rewrite Hopt, Hpost. reflexivity. }
  do 2 right.
  destruct (method_post req Hpost) as [Ho Hn].
  destruct (JSON_parse P (req_text req)) as [body |] eqn:Hparse.
  2: { left. split; [exact Hpost |]. eexists. open_worker.
       rewrite Ho, Hn. simpl. rewrite Hparse. reflexivity. }
  destruct (nullish body) eqn:Hbody.
  { left. split; [exact Hpost |]. eexists. open_worker.
    rewrite Ho, Hn. simpl. rewrite Hparse. simpl. rewrite Hbody.
    reflexivity. }
  destruct (key_missing (API_KEY_caffine env)) eqn:Hkey.
  { left. split; [exact Hpost |]. eexists. open_worker.
    rewrite Ho, Hn. simpl. rewrite Hparse. simpl. rewrite Hbody. simpl.
    rewrite Hkey. reflexivity. }
  apply key_missing_false in Hkey. destruct Hkey as [k [Hkey Hk]].
  destruct (worker_build_contents_result (prop body "message")
              (or_default (prop body "history") (JArr [])) [])
    as [[h [Hh Hb]] | [f Hb]].
  - right. split; [exact Hpost |]. exists body, k, h.
    split; [reflexivity |].
    split; [exact Hkey | split; [exact Hk | split; [exact Hh |]]].
    apply (worker_reaches P req env body k); assumption.
  - left. split; [exact Hpost |]. eexists. open_worker.
    rewrite Ho, Hn. simpl. rewrite Hparse. simpl. rewrite Hbody. simpl.
    rewrite Hkey, (key_present k Hk). simpl. rewrite Hb. reflexivity.
Qed.

(** X10.  The Worker never lets an exception escape: every request,
    whatever its method, body and the upstream's behaviour, is answered,
    with status 200, 405 or 500, after at most one upstream call; and a
    POST is always answered with the JSON content type and the
    allow-origin header. *)
Theorem worker_always_responds (P : Platform) (req : Request) (env : Env) :
  exists r,
    completion (run (Worker.fetch P req env)) = Returned r
    /\ (status r = 200 \/ status r = 405 \/ status r = 500)
    /\ (length (calls (run (Worker.fetch P req env))) <= 1)%nat
    /\ (method req <> "POST" \/ headers r = Worker.jsonHeaders).
Proof.
  destruct (worker_run_cases P req env)
    as [[Hm H] | [[Hm [Hm' H]] | [[Hm [msg H]] | [Hm H]]]].
  - rewrite H. eexists. repeat split; simpl; auto.
    left. rewrite Hm. discriminate.
  - rewrite H. eexists. repeat split; simpl; auto.
  - rewrite H. eexists. repeat split; simpl; auto.
  - destruct H as (body & k & h & _ & _ & _ & _ & H). cbv zeta in H.
    rewrite H. simpl.
    match goal with |- context [worker_after P ?res] =>
      destruct (worker_after_cases P res) as [r [Hr [Hh Hs]]]
    end.
    exists r. repeat split; auto. tauto.
Qed.

(** X11.  Any method other than OPTIONS and POST is answered HTTP 405
    with the text Method Not Allowed.  The response carries the content
    type the constructor gives a response made from a string, text/plain
    in UTF-8, and no CORS header; neither the body nor the key is read,
    and nothing is sent upstream. *)
Theorem worker_method_not_allowed (P : Platform) (req : Request) (env : Env) :
  method req <> "OPTIONS" -> method req <> "POST" ->
  run (Worker.fetch P req env)
  = mkRun (Returned (mkResponse 405
                       [("content-type", "text/plain;charset=UTF-8")]
                       (Text "Method Not Allowed"))) [].
Proof.
  intros Hopt Hpost. open_worker.
  apply (proj2 (String.eqb_neq _ _)) in Hopt, Hpost.
  rewrite Hopt, Hpost. reflexivity.
Qed.

Lemma worker_method_not_allowed_witness :
  run (Worker.fetch (Demo.answering 200 Demo.flight)
         (mkRequest "GET" [] "") Demo.env_key)
  = mkRun (Returned (mkResponse 405
                       [("content-type", "text/plain;charset=UTF-8")]
                       (Text "Method Not Allowed"))) [].
Proof.
  apply (worker_method_not_allowed (Demo.answering 200 Demo.flight)
           (mkRequest "GET" [] "") Demo.env_key);
    discriminate.
Defined.

(** X12.  Missing credential.  A POST with a JSON body that is not null,
    while API_KEY_caffine is unset or empty, is answered HTTP 500 with the
    error API key not configured, whatever the body holds, and no upstream
    call is made. *)
Theorem worker_missing_key (P : Platform) (req : Request) (env : Env)
      (body : JsVal) :
  method req = "POST" ->
  JSON_parse P (req_text req) = Some body ->
  nullish body = false ->
  key_missing (API_KEY_caffine env) = true ->
  run (Worker.fetch P req env)
  = mkRun (Returned (mkResponse 500 Worker.jsonHeaders
                       (Json (JObj [("error", JStr "API key not configured")]))))
          [].
Proof.
  intros Hpost Hparse Hbody Hkey.
  destruct (method_post req Hpost) as [Ho Hn]. open_worker.
  rewrite Ho, Hn. simpl. rewrite Hparse. simpl. rewrite Hbody. simpl.
  rewrite Hkey. reflexivity.
Qed.

Lemma worker_missing_key_witness :
  run (Worker.fetch (Demo.answering 200 Demo.flight) (Demo.post "{}")
         (mkEnv (Some "")))
  = mkRun (Returned (mkResponse 500 Worker.jsonHeaders
                       (Json (JObj [("error", JStr "API key not configured")]))))
          [].
Proof.
  apply (worker_missing_key (Demo.answering 200 Demo.flight) (Demo.post "{}")
           (mkEnv (Some "")) (JObj []));
    reflexivity.
Defined.

(** X13.  Unlike the Pages Function, the Worker rejects a history that is
    present and no array: the call of slice or forEach on it throws, the
    request is answered HTTP 500 with that error's message, and nothing is
    sent upstream. *)
Theorem worker_history_not_array_is_500 (P : Platform) (req : Request)
      (env : Env) (body : JsVal) :
  method req = "POST" ->
  JSON_parse P (req_text req) = Some body ->
  nullish body = false ->
  key_missing (API_KEY_caffine env) = false ->
  prop body "history" <> JUndefined ->
  is_array (prop body "history") = false ->
  exists f,
    run (Worker.fetch P req env)
    = mkRun (Returned (mkResponse 500 Worker.jsonHeaders
                         (Json (JObj [("error", JStr (fault_message P f))]))))
            []
    /\ (f = NullRead "slice" \/ f = NotCallable "history.slice"
        \/ f = NotCallable "history.slice(...).forEach").
Proof.
  intros Hpost Hparse Hbody Hkey Hpresent Harr.
  destruct (method_post req Hpost) as [Ho Hn].
  assert (exists f,
             Worker.build_contents (prop body "message")
               (or_default (prop body "history") (JArr [])) []
             = (Throw (EngineError f), [])
             /\ (f = NullRead "slice" \/ f = NotCallable "history.slice"
                 \/ f = NotCallable "history.slice(...).forEach"))
    as [f [Hb Hf]].
  { destruct (prop body "history"); try discriminate Harr;
      try contradiction; eexists; (split; [reflexivity | tauto]). }
  exists f. split; [| exact Hf]. open_worker.
  rewrite Ho, Hn. simpl. rewrite Hparse. simpl. rewrite Hbody. simpl.
  rewrite Hkey. simpl. rewrite Hb. reflexivity.
Qed.

Lemma worker_history_not_array_is_500_witness :
  exists f,
    run (Worker.fetch (Cases.answering 200 Demo.flight)
           (Demo.post Cases.body_history_text) Demo.env_key)
    = mkRun (Returned (mkResponse 500 Worker.jsonHeaders
                         (Json (JObj [("error",
                                       JStr (Demo.messages f))]))))
            []
    /\ (f = NullRead "slice" \/ f = NotCallable "history.slice"
        \/ f = NotCallable "history.slice(...).forEach").
Proof.
  apply (worker_history_not_array_is_500 (Cases.answering 200 Demo.flight)
           (Demo.post Cases.body_history_text) Demo.env_key
           (JObj [("message", JStr "hi"); ("history", JStr "earlier")]));
    try reflexivity; discriminate.
Defined.

(** X14.  The Worker does not read the caller's systemPrompt: two POST
    bodies that agree on message and history are handled alike, down to
    the upstream call and the response. *)
Theorem worker_ignores_system_prompt (P : Platform) (req1 req2 : Request)
      (env : Env) (body1 body2 : JsVal) :
  method req1 = method req2 ->
  JSON_parse P (req_text req1) = Some body1 ->
  JSON_parse P (req_text req2) = Some body2 ->
  nullish body1 = false -> nullish body2 = false ->
  prop body1 "message" = prop body2 "message" ->
  prop body1 "history" = prop body2 "history" ->
  run (Worker.fetch P req1 env) = run (Worker.fetch P req2 env).
Proof.
  intros Hmethod Hp1 Hp2 Hb1 Hb2 Hmsg Hhist. open_worker.
  rewrite Hmethod, Hp1, Hp2. simpl. rewrite Hb1, Hb2. simpl.
  rewrite Hmsg, Hhist. reflexivity.
Qed.

Lemma worker_ignores_system_prompt_witness :
  run (Worker.fetch (Cases.answering 200 Demo.flight)
         (Demo.post Demo.body_hi) Demo.env_key)
  = run (Worker.fetch (Cases.answering 200 Demo.flight)
           (Demo.post Cases.body_prompt) Demo.env_key).
Proof.
  apply (worker_ignores_system_prompt (Cases.answering 200 Demo.flight)
           (Demo.post Demo.body_hi) (Demo.post Cases.body_prompt) Demo.env_key
           (JObj [("message", JStr "hi")])
           (JObj [("message", JStr "hi"); ("systemPrompt", JStr "Be rude.")]));
    reflexivity.
Defined.

(** X15.  The Worker calls upstream at most once per request, and a call
    it makes is the POST of line 64, determined by the request body and
    the key.  The request is a POST whose body parses, the key is set and
    closes the fixed URL, the one header is the JSON content type, the
    generation settings are the fixed ones, no safety settings are sent,
    and the contents are: the fixed barista pair; then those of the last
    ten entries of the history, an array or absent, that have a truthy
    role and truthy parts, sent as role and parts; then a user turn with
    whatever the body holds as message. *)
Theorem worker_call_shape (P : Platform) (req : Request) (env : Env) :
  calls (run (Worker.fetch P req env)) = []
  \/ exists body k h,
       method req = "POST"
       /\ JSON_parse P (req_text req) = Some body
       /\ API_KEY_caffine env = Some k /\ k <> ""
       /\ or_default (prop body "history") (JArr []) = JArr h
       /\ let earlier :=
            map resent
              (filter (fun t => truthy (prop t "role")
                                && truthy (prop t "parts"))
                      (last_entries 10 h)) in
          (length earlier <= 10)%nat
          /\ calls (run (Worker.fetch P req env))
             = [mkOutbound (ENDPOINT ++ k)%string "POST"
                  [("Content-Type", "application/json")]
                  (Json (JObj [("contents",
                                JArr ([said "user" Worker.BARISTA_PROMPT;
                                       said "model" Worker.ACK]
                                      ++ earlier
                                      ++ [JObj [("role", JStr "user");
                                                ("parts",
                                                 JArr [JObj [("text",
                                                              prop body "message")]])]]));
                               ("generationConfig",
                                JObj [("temperature", JNum (7 # 10));
                                      ("topK", JNum (40 # 1));
                                      ("topP", JNum (95 # 100));
                                      ("maxOutputTokens", JNum (512 # 1))])]))].
Proof.
  destruct (worker_run_cases P req env)
    as [[Hm H] | [[Hm [Hm' H]] | [[Hm [msg H]] | [Hm H]]]];
    try (rewrite H; left; reflexivity).
  destruct H as (body & k & h & Hparse & Hkey & Hk & Hh & H). cbv zeta in H.
  rewrite H. simpl. right.
  exists body, k, h. repeat (split; [assumption |]). cbv zeta.
  split.
  - rewrite length_map.
    eapply Nat.le_trans; [apply filter_length_le |].
    rewrite <- slice_last_last_entries. apply slice_last_length.
  - unfold Worker.outbound, forwarded.
    rewrite slice_last_last_entries. reflexivity.
Qed.

(* ------------------------------------------------------------------ *)
(** ** The page script: escaping                                       *)
(* ------------------------------------------------------------------ *)

Lemma occurs_append (c : ascii) (a b : string) :
  occurs c (a ++ b) <-> occurs c a \/ occurs c b.
Proof.
  unfold occurs. induction a as [| x a IH]; simpl.
  - tauto.
  - rewrite IH. tauto.
Qed.

Lemma string_append_assoc (a b c : string) :
  ((a ++ b) ++ c)%string = (a ++ (b ++ c))%string.
Proof. induction a as [| x a IH]; simpl; [reflexivity | rewrite IH; reflexivity]. Qed.

Lemma replace_all_each_char (c : ascii) (by_ : string) (s : string) :
  Script.replace_all c by_ s
  = each_char (fun x => if Ascii.eqb x c then by_ else String x EmptyString) s.
Proof.
  induction s as [| x s IH]; simpl; [reflexivity |].
  rewrite IH. destruct (Ascii.eqb x c); reflexivity.
Qed.

Lemma replace_all_append (c : ascii) (by_ : string) (a b : string) :
  Script.replace_all c by_ (a ++ b)
  = (Script.replace_all c by_ a ++ Script.replace_all c by_ b)%string.
Proof.
  induction a as [| x a IH]; simpl; [reflexivity |].
  rewrite IH. destruct (Ascii.eqb x c); [| reflexivity].
  rewrite string_append_assoc. reflexivity.
Qed.

Lemma escapeHtml_each_char (str : string) :
  Script.escapeHtml str = each_char entity str.
Proof.
  unfold Script.escapeHtml. induction str as [| c str IH]; [reflexivity |].
  simpl. unfold entity at 1.
  destruct (Ascii.eqb c "&"); simpl; [rewrite IH; reflexivity |].
  destruct (Ascii.eqb c "<"); simpl; [rewrite IH; reflexivity |].
  destruct (Ascii.eqb c ">"); simpl; rewrite IH; reflexivity.
Qed.

(** X16.  The three replacements of escapeHtml, made one after the other,
    come to one pass over the text: an ampersand becomes &amp;, an angle
    bracket &lt; or &gt;, and the ampersands of the entities written are
    not escaped again. *)
Theorem escapeHtml_by_char (str : string) :
  Script.escapeHtml str = each_char entity str.
Proof.
  unfold Script.escapeHtml. induction str as [| c str IH]; [reflexivity |].
  simpl. unfold entity at 1.
  destruct (Ascii.eqb c "&"); simpl; [rewrite IH; reflexivity |].
  destruct (Ascii.eqb c "<"); simpl; [rewrite IH; reflexivity |].
  destruct (Ascii.eqb c ">"); simpl; rewrite IH; reflexivity.
Qed.

Lemma occurs_each_char (c : ascii) (f : ascii -> string) (s : string) :
  occurs c (each_char f s) -> exists x, occurs x s /\ occurs c (f x).
Proof.
  induction s as [| x s IH]; simpl; intros H.
  - destruct H.
  - apply occurs_append in H. destruct H as [H | H].
    + exists x. split; [left; reflexivity | exact H].
    + destruct (IH H) as [y [Hy Hc]]. exists y. split; [right; exact Hy | exact Hc].
Qed.

(** X17.  No angle bracket is left in escaped text: what the user typed
    cannot open or close a tag in the bubble. *)
Theorem escapeHtml_no_angle_bracket (str : string) :
  ~ occurs "<" (Script.escapeHtml str) /\ ~ occurs ">" (Script.escapeHtml str).
Proof.
  rewrite escapeHtml_each_char.
  split; intros H; apply occurs_each_char in H; destruct H as [x [_ Hx]];
    unfold entity in Hx;
    destruct (Ascii.eqb_spec x "&"); [| destruct (Ascii.eqb_spec x "<");
      [| destruct (Ascii.eqb_spec x ">")] | | destruct (Ascii.eqb_spec x "<");
      [| destruct (Ascii.eqb_spec x ">")]];
    unfold occurs in Hx; simpl in Hx;
    repeat (destruct Hx as [Hx | Hx]; [try discriminate Hx; congruence |]);
    destruct Hx.
Qed.

Lemma entity_prefix_free (x y : ascii) (a b : string) :
  (entity x ++ a)%string = (entity y ++ b)%string -> x = y /\ a = b.
Proof.
  unfold entity.
  destruct (Ascii.eqb_spec x "&") as [-> | Hx1];
    [| destruct (Ascii.eqb_spec x "<") as [-> | Hx2];
       [| destruct (Ascii.eqb_spec x ">") as [-> | Hx3]]];
    (destruct (Ascii.eqb_spec y "&") as [-> | Hy1];
     [| destruct (Ascii.eqb_spec y "<") as [-> | Hy2];
        [| destruct (Ascii.eqb_spec y ">") as [-> | Hy3]]]);
    simpl; intros H; try discriminate H;
    try (injection H as H; subst; split; [congruence | reflexivity]);
    try (injection H as H1 H2; subst; congruence).
Qed.

(** X18.  Escaping loses nothing: two texts that escape to the same HTML
    are the same text. *)
Theorem escapeHtml_injective (a b : string) :
  Script.escapeHtml a = Script.escapeHtml b -> a = b.
Proof.
  rewrite !escapeHtml_each_char. revert b.
  induction a as [| x a IH]; intros [| y b] H; simpl in H.
  - reflexivity.
  - exfalso. unfold entity in H.
    destruct (Ascii.eqb y "&"); [discriminate H |].
    destruct (Ascii.eqb y "<"); [discriminate H |].
    destruct (Ascii.eqb y ">"); discriminate H.
  - exfalso. unfold entity in H.
    destruct (Ascii.eqb x "&"); [discriminate H |].
    destruct (Ascii.eqb x "<"); [discriminate H |].
    destruct (Ascii.eqb x ">"); discriminate H.
  - apply entity_prefix_free in H. destruct H as [-> H].
    rewrite (IH b H). reflexivity.
Qed.

Lemma escapeHtml_injective_witness : "a<b" = "a<b".
Proof.
  apply (escapeHtml_injective "a<b" "a<b"). reflexivity.
Defined.

(** X19.  formatBotText turns every newline into a line break and leaves
    every other character where it is: no newline is left in the
    bubble. *)
Theorem formatBotText_by_char (text : string) :
  Script.formatBotText text = each_char line_break text
  /\ ~ occurs (ascii_of_nat 10) (Script.formatBotText text).
Proof.
  assert (Heq : Script.formatBotText text = each_char line_break text).
  { unfold Script.formatBotText. apply replace_all_each_char. }
  split; [exact Heq | rewrite Heq].
  intros H. apply occurs_each_char in H. destruct H as [x [_ Hx]].
  unfold line_break in Hx.
  destruct (Ascii.eqb x (ascii_of_nat 10)) eqn:Hn;
    unfold occurs in Hx; simpl in Hx.
  - repeat (destruct Hx as [Hx | Hx]; [discriminate Hx |]). destruct Hx.
  - destruct Hx as [Hx | []]. subst x. rewrite Ascii.eqb_refl in Hn.
    discriminate Hn.
Qed.

(** X20.  A reply is not escaped: every character of it other than a
    newline, an angle bracket of markup included, is in the HTML of the
    bubble. *)
Theorem formatBotText_keeps_markup (c : ascii) (text : string) :
  c <> ascii_of_nat 10 ->
  occurs c text ->
  occurs c (Script.formatBotText text).
Proof.
  intros Hc. unfold Script.formatBotText. rewrite replace_all_each_char.
  induction text as [| x text IH]; simpl; [tauto |].
  intros H. apply occurs_append. unfold occurs in H. simpl in H.
  destruct H as [-> | H]; [left | right; apply IH, H].
  apply (proj2 (Ascii.eqb_neq _ _)) in Hc. rewrite Hc.
  left. reflexivity.
Qed.

Lemma formatBotText_keeps_markup_witness :
  occurs "<" (Script.formatBotText "<b>hi</b>").
Proof.
  apply (formatBotText_keeps_markup "<" "<b>hi</b>").
  - discriminate.
  - left. reflexivity.
Defined.

(* ------------------------------------------------------------------ *)
(** ** The page script: the conversation                               *)
(* ------------------------------------------------------------------ *)

Lemma speak_spoken (synth : option (list string)) (text : string)
      (pg : Script.Page) :
  ChatPage.speak synth text pg
  = Script.mkPage (Script.input_value pg) (Script.messages pg)
      (Script.conversationHistory pg) (Script.timers pg) (Script.requests pg)
      (Script.spoken pg ++ utterances synth text).
Proof.
  destruct synth; simpl; [reflexivity |].
  rewrite app_nil_r. destruct pg; reflexivity.
Qed.

(** X21.  In script.js a send whose trimmed text is not empty clears the
    input box and shows the escaped text, and when the timer of one
    second runs, the same fixed response whatever was asked; nothing is
    sent over the network and the conversation history stays as it
    was. *)
Theorem script_send_round (trim : string -> string) (pg : Script.Page)
      (text : string) :
  trim (Script.input_value pg) = text -> text <> "" ->
  Script.timers pg = [] ->
  Script.timer_runs (Script.handleSend trim pg)
  = Script.mkPage ""
      (Script.messages pg
       ++ [bubble "user" (Script.escapeHtml text);
           bubble "bot" (Script.formatBotText Script.RESPONSE)])
      (Script.conversationHistory pg) [] (Script.requests pg)
      (Script.spoken pg).
Proof.
  intros Htrim Htext Htimers.
  unfold Script.handleSend, Script.handleSend_with. rewrite Htrim.
  apply (proj2 (String.eqb_neq _ _)) in Htext. rewrite Htext.
  unfold Script.timer_runs, Script.getBotResponse, Script.appendMsg. simpl.
  rewrite Htimers. simpl. rewrite <- app_assoc. reflexivity.
Qed.

Lemma script_send_round_witness :
  Script.timer_runs (Script.handleSend (fun s => s)
                       (Script.mkPage "<b>" [] [] [] [] []))
  = Script.mkPage ""
      [bubble "user" "&lt;b&gt;";
       bubble "bot" (Script.formatBotText Script.RESPONSE)]
      [] [] [] [].
Proof.
  apply (script_send_round (fun s => s) (Script.mkPage "<b>" [] [] [] [] [])
           "<b>");
    try reflexivity; discriminate.
Defined.

(** X22.  A round that works.  When the trimmed text is not empty and the
    answer to the widget's request is JSON whose reply is a non-empty
    string, the widget has sent one request with the text, the history as
    it was and its system prompt, shows the escaped text and the reply,
    speaks the reply, and keeps the exchange: the user turn, then the
    model turn. *)
Theorem chat_round_kept (B : Platform) (synth : option (list string))
      (trim : string -> string) (pg : Script.Page) (typed u body t : string)
      (code : Z) (data : JsVal) :
  trim typed = u -> u <> "" ->
  upstream B (widget_request u (Script.conversationHistory pg))
  = Answered code body ->
  JSON_parse B body = Some data ->
  prop data "reply" = JStr t -> t <> "" ->
  ChatPage.types_and_sends B synth trim typed pg
  = Script.mkPage ""
      (Script.messages pg
       ++ [bubble "user" (Script.escapeHtml u);
           bubble "bot" (Script.formatBotText t)])
      (Script.conversationHistory pg ++ exchange u t)
      (Script.timers pg)
      (Script.requests pg
       ++ [widget_request u (Script.conversationHistory pg)])
      (Script.spoken pg ++ utterances synth t).
Proof.
  intros Htrim Hu Hup Hparse Hreply Ht.
  unfold ChatPage.types_and_sends, ChatPage.handleSend, Script.handleSend_with.
  simpl. rewrite Htrim.
  apply (proj2 (String.eqb_neq _ _)) in Hu. rewrite Hu.
  unfold ChatPage.getBotResponse, ChatPage.hears, ChatPage.asks,
    ChatPage.chat_request. simpl.
  unfold widget_request, widget_body in Hup. rewrite Hup, Hparse.
  assert (Hn : nullish data = false)
    by (destruct data; try discriminate Hreply; reflexivity).
  rewrite Hn, Hreply. simpl.
  apply (proj2 (String.eqb_neq _ _)) in Ht. rewrite Ht. simpl.
  rewrite speak_spoken. simpl. rewrite <- app_assoc. reflexivity.
Qed.

Lemma chat_round_kept_witness :
  ChatPage.types_and_sends (Visit.answering 200 Visit.reply_body) None
    Visit.trimmed "hi" Script.loaded
  = Script.mkPage ""
      [bubble "user" "hi"; bubble "bot" "Try our Coffee Flight!"]
      (exchange "hi" "Try our Coffee Flight!")
      [] [widget_request "hi" []] [].
Proof.
  apply (chat_round_kept (Visit.answering 200 Visit.reply_body) None
           Visit.trimmed Script.loaded "hi" "hi" Visit.reply_body
           "Try our Coffee Flight!" 200
           (JObj [("reply", JStr "Try our Coffee Flight!")]));
    try reflexivity; discriminate.
Defined.

(** X23.  A round that fails.  Unless the answer is JSON with a non-empty
    string as reply (the fetch is rejected, the body is not JSON or is
    null, the reply is missing, empty, or no string), the widget shows and
    speaks its apology after the user's text, and the conversation history
    stays as it was. *)
Theorem chat_round_apology (B : Platform) (synth : option (list string))
      (trim : string -> string) (pg : Script.Page) (typed u : string) :
  trim typed = u -> u <> "" ->
  (forall code body data t,
      upstream B (widget_request u (Script.conversationHistory pg))
      = Answered code body ->
      JSON_parse B body = Some data ->
      prop data "reply" = JStr t -> t = "") ->
  ChatPage.types_and_sends B synth trim typed pg
  = Script.mkPage ""
      (Script.messages pg
       ++ [bubble "user" (Script.escapeHtml u);
           bubble "bot" (Script.formatBotText ChatPage.ERROR_MSG)])
      (Script.conversationHistory pg)
      (Script.timers pg)
      (Script.requests pg
       ++ [widget_request u (Script.conversationHistory pg)])
      (Script.spoken pg ++ utterances synth ChatPage.ERROR_MSG).
Proof.
  intros Htrim Hu Hnone.
  unfold ChatPage.types_and_sends, ChatPage.handleSend, Script.handleSend_with.
  simpl. rewrite Htrim.
  apply (proj2 (String.eqb_neq _ _)) in Hu. rewrite Hu.
  unfold ChatPage.getBotResponse, ChatPage.hears, ChatPage.asks,
    ChatPage.chat_request, ChatPage.apologize.
  simpl. unfold widget_request, widget_body in Hnone.
  assert (Hend : forall pg',
             ChatPage.speak synth ChatPage.ERROR_MSG
               (Script.appendMsg ChatPage.ERROR_MSG "bot" pg')
             = Script.mkPage (Script.input_value pg')
                 (Script.messages pg'
                  ++ [bubble "bot" (Script.formatBotText ChatPage.ERROR_MSG)])
                 (Script.conversationHistory pg') (Script.timers pg')
                 (Script.requests pg')
                 (Script.spoken pg' ++ utterances synth ChatPage.ERROR_MSG)).
  { intros pg'. rewrite speak_spoken. reflexivity. }
  destruct (upstream B _) as [e | code body | code e] eqn:Hup;
    [rewrite Hend; simpl; rewrite <- app_assoc; reflexivity |
    | rewrite Hend; simpl; rewrite <- app_assoc; reflexivity].
  destruct (JSON_parse B body) as [data |] eqn:Hparse;
    [| rewrite Hend; simpl; rewrite <- app_assoc; reflexivity].
  destruct (nullish data);
    [rewrite Hend; simpl; rewrite <- app_assoc; reflexivity |].
  destruct (prop data "reply") as [| | b | q | t | items | fs | neg] eqn:Hreply;
    simpl;
    try (rewrite Hend; simpl; rewrite <- app_assoc; reflexivity);
    try (destruct b; rewrite Hend; simpl; rewrite <- app_assoc; reflexivity);
    try (destruct (Qnum q =? 0); rewrite Hend; simpl; rewrite <- app_assoc;
         reflexivity).
  rewrite (Hnone code body data t eq_refl Hparse Hreply). simpl.
  rewrite Hend. simpl. rewrite <- app_assoc. reflexivity.
Qed.

Lemma chat_round_apology_witness :
  Script.conversationHistory
    (ChatPage.types_and_sends Visit.offline None Visit.trimmed "hi"
       Script.loaded)
  = [].
Proof.
  rewrite (chat_round_apology Visit.offline None Visit.trimmed Script.loaded
             "hi" "hi");
    try reflexivity; discriminate.
Defined.

Lemma conversation_snoc (pairs : list (string * string)) (u t : string) :
  conversation (pairs ++ [(u, t)])
  = conversation pairs ++ [said "user" u; said "model" t].
Proof. unfold conversation. rewrite flat_map_app. reflexivity. Qed.

Lemma conversation_kept (pairs : list (string * string)) :
  conversation pairs = kept pairs.
Proof. reflexivity. Qed.

Lemma conversation_length (pairs : list (string * string)) :
  length (conversation pairs) = (2 * length pairs)%nat.
Proof.
  unfold conversation. induction pairs as [| p pairs IH]; [reflexivity |].
  cbn [flat_map app length]. rewrite IH. lia.
Qed.

(** The answer to a request changes no request; it leaves the
    conversation as it was or adds the exchange, the reply not empty. *)
Lemma hears_cases (B : Platform) (synth : option (list string))
      (u : string) (result : FetchResult) (pg : Script.Page) :
  Script.requests (ChatPage.hears B synth u result pg) = Script.requests pg
  /\ (Script.conversationHistory (ChatPage.hears B synth u result pg)
      = Script.conversationHistory pg
      \/ exists t,
           t <> ""
           /\ Script.conversationHistory (ChatPage.hears B synth u result pg)
              = Script.conversationHistory pg
                ++ [said "user" u; said "model" t]).
Proof.
  unfold ChatPage.hears, ChatPage.apologize.
  destruct result as [e | code body | code e];
    [rewrite speak_spoken; simpl; auto | | rewrite speak_spoken; simpl; auto].
  destruct (JSON_parse B body) as [data |];
    [| rewrite speak_spoken; simpl; auto].
  destruct (nullish data); [rewrite speak_spoken; simpl; auto |].
  destruct (prop data "reply") as [| | b | q | t | items | fs | neg]; simpl;
    try (rewrite speak_spoken; simpl; auto; fail);
    try (destruct b; rewrite speak_spoken; simpl; auto; fail);
    try (destruct (Qnum q =? 0); rewrite speak_spoken; simpl; auto; fail).
  destruct (String.eqb_spec t "") as [-> | Ht]; simpl.
  - rewrite speak_spoken. simpl. auto.
  - rewrite speak_spoken. simpl. split; [reflexivity |].
    right. exists t. split; [exact Ht | reflexivity].
Qed.

(** When [handleSend] returns, the conversation is as it was, and a text
    that is not blank has gone out with it. *)
Lemma send_returns_cases (trim : string -> string) (text : string)
      (pg : Script.Page) :
  Script.conversationHistory (ChatPage.send_returns trim text pg)
  = Script.conversationHistory pg
  /\ Script.requests (ChatPage.send_returns trim text pg)
     = if (trim text =? "")%string then Script.requests pg
       else Script.requests pg
            ++ [widget_request (trim text) (Script.conversationHistory pg)].
Proof.
  unfold ChatPage.send_returns, Script.handleSend_with. simpl.
  destruct (trim text =? "")%string; split; reflexivity.
Qed.

Lemma Forall_without {A : Type} (Q : A -> Prop) (i : nat) (xs : list A) :
  Forall Q xs -> Forall Q (firstn i xs ++ skipn (S i) xs).
Proof.
  intros H. apply Forall_app. split.
  - rewrite <- (firstn_skipn i xs) in H. apply Forall_app in H. tauto.
  - rewrite <- (firstn_skipn (S i) xs) in H. apply Forall_app in H. tauto.
Qed.

Lemma length_without {A : Type} (i : nat) (xs : list A) (x : A) :
  nth_error xs i = Some x ->
  S (length (firstn i xs ++ skipn (S i) xs)) = length xs.
Proof.
  intros H.
  assert (Hi : (i < length xs)%nat)
    by (apply nth_error_Some; rewrite H; discriminate).
  rewrite length_app, length_firstn, length_skipn. lia.
Qed.

(** One event keeps the widget steady. *)
Lemma happens_steady (B : Platform) (synth : option (list string))
      (trim : string -> string) (ev : Event) (n : nat) (tab : Tab) :
  steady n tab ->
  steady (n + sends [ev]) (happens B synth trim ev tab).
Proof.
  intros [[pairs [Hp [Hh Hlen]]] [Haw [Hreq Hn]]].
  destruct ev as [text | i result].
  - simpl. destruct (send_returns_cases trim text (page tab)) as [Hc Hr].
    unfold steady. simpl. rewrite Hc, Hr.
    destruct (String.eqb_spec (trim text) "") as [Hblank | Hu].
    + repeat split; try assumption; [| lia].
      exists pairs. repeat split; assumption.
    + repeat split.
      * exists pairs. repeat split; try assumption.
        rewrite !length_app. simpl. lia.
      * apply Forall_app. split; [exact Haw | repeat constructor; exact Hu].
      * apply Forall_app. split; [exact Hreq |].
        constructor; [| constructor].
        exists (trim text), pairs. rewrite Hh. repeat split; assumption.
      * rewrite length_app. unfold sends. simpl. lia.
  - replace (n + sends [Heard i result])%nat with n
      by (unfold sends; simpl; lia).
    cbn [happens].
    destruct (nth_error (awaited tab) i) as [u |] eqn:Hi.
    2: { repeat split; try assumption. exists pairs. repeat split; assumption. }
    pose proof (length_without i (awaited tab) u Hi) as Hless.
    pose proof (Forall_without _ i _ Haw) as Haw'.
    assert (Hu : u <> "").
    { apply nth_error_In in Hi. revert u Hi. apply Forall_forall. exact Haw. }
    remember (firstn i (awaited tab) ++ skipn (S i) (awaited tab)) as rest.
    destruct (hears_cases B synth u result (page tab))
      as [Hr [Hc | [t [Ht Hc]]]];
      unfold steady; simpl; rewrite Hr, Hc; repeat split;
      try assumption.
    + exists pairs. repeat split; try assumption. lia.
    + exists (pairs ++ [(u, t)]). repeat split.
      * apply Forall_app. split; [exact Hp |].
        constructor; [split; assumption | constructor].
      * rewrite conversation_snoc, Hh. reflexivity.
      * rewrite length_app. simpl. lia.
Qed.

Lemma sends_cons (ev : Event) (events : list Event) :
  sends (ev :: events) = (sends [ev] + sends events)%nat.
Proof. unfold sends. simpl. destruct ev; reflexivity. Qed.

(** And so does a whole visit. *)
Lemma visit_steady (B : Platform) (synth : option (list string))
      (trim : string -> string) (events : list Event) :
  forall n tab,
    steady n tab ->
    steady (n + sends events) (visit B synth trim events tab).
Proof.
  induction events as [| ev events IH]; intros n tab H.
  - unfold sends. simpl. rewrite Nat.add_0_r. exact H.
  - rewrite sends_cons, Nat.add_assoc. simpl.
    apply IH, happens_steady, H.
Qed.

Lemma opened_steady : steady 0 opened.
Proof.
  repeat split; try constructor.
  exists []. repeat split; constructor.
Qed.

(** Two sends before any answer, the answers in the other order: both
    requests carry the empty conversation, and the exchange answered
    first is kept first. *)
Lemma answers_out_of_order :
  let tab := visit (Visit.answering 200 Visit.reply_body) None Visit.trimmed
               [Typed "one"; Typed "two";
                Heard 1 (Answered 200 Visit.reply_body);
                Heard 0 (Answered 200 Visit.reply_body)]
               opened in
  Script.requests (page tab) = [widget_request "one" []; widget_request "two" []]
  /\ Script.conversationHistory (page tab)
     = conversation [("two", "Try our Coffee Flight!");
                     ("one", "Try our Coffee Flight!")]
  /\ awaited tab = [].
Proof. repeat split. Qed.

(** X24.  Whatever the user sends, in whatever order the answers arrive
    and however the network behaves, sends not waiting for answers, the
    conversation the widget keeps is a list of complete exchanges: a user
    turn with a non-empty text, then the model turn with its non-empty
    reply, each a role and one text part.  It never holds a turn without
    its partner, an empty text, or an apology, and it holds no more
    exchanges than texts were sent. *)
Theorem history_is_complete_exchanges (B : Platform)
      (synth : option (list string)) (trim : string -> string)
      (events : list Event) :
  exists pairs,
    Forall (fun p => fst p <> "" /\ snd p <> "") pairs
    /\ (length pairs <= sends events)%nat
    /\ Script.conversationHistory (page (visit B synth trim events opened))
       = flat_map (fun p => [said "user" (fst p); said "model" (snd p)]) pairs.
Proof.
  destruct (visit_steady B synth trim events 0 opened opened_steady)
    as [[pairs [Hp [Hh Hlen]]] [_ [_ Hn]]].
  exists pairs. repeat split; try assumption. simpl in Hn. lia.
Qed.

(** X25.  Every request the widget sends, whenever it is sent among the
    answers to the earlier ones, goes to the Worker's address as a POST of
    JSON with a non-empty message, a history of complete exchanges, and
    the widget's fixed system prompt: it never sends the missing or empty
    message that the Worker would pass on unchecked.  No more requests go
    out than texts were sent. *)
Theorem requests_are_well_formed (B : Platform)
      (synth : option (list string)) (trim : string -> string)
      (events : list Event) :
  Forall (fun o =>
            exists m pairs,
              m <> ""
              /\ Forall (fun p => fst p <> "" /\ snd p <> "") pairs
              /\ o = mkOutbound
                       "https://green-grass-4b15.cogniq-bharath.workers.dev/"
                       "POST" [("Content-Type", "application/json")]
                       (Json (JObj [("message", JStr m);
                                    ("history",
                                     JArr (flat_map
                                             (fun p => [said "user" (fst p);
                                                        said "model" (snd p)])
                                             pairs));
                                    ("systemPrompt",
                                     JStr ChatPage.SYSTEM_PROMPT)])))
         (Script.requests (page (visit B synth trim events opened)))
  /\ (length (Script.requests (page (visit B synth trim events opened)))
      <= sends events)%nat.
Proof.
  destruct (visit_steady B synth trim events 0 opened opened_steady)
    as [_ [_ [Hreq Hn]]].
  split; [exact Hreq | exact Hn].
Qed.

Lemma Forall_slice_last {A : Type} (Q : A -> Prop) (n : nat) (xs : list A) :
  Forall Q xs -> Forall Q (slice_last n xs).
Proof.
  unfold slice_last. intros H.
  rewrite <- (firstn_skipn (length xs - n) xs) in H.
  apply Forall_app in H. tauto.
Qed.

Lemma kept_well_formed (pairs : list (string * string)) :
  Forall (fun t => exists r p,
              t = turn r p /\ truthy r = true /\ is_array p = true)
         (kept pairs).
Proof.
  unfold kept. induction pairs as [| [u t] pairs IH]; simpl.
  - constructor.
  - constructor; [| constructor; [| exact IH]];
      eexists; eexists; (split; [reflexivity | split; reflexivity]).
Qed.

Lemma well_formed_readable (turns : list JsVal) :
  Forall (fun t => exists r p,
              t = turn r p /\ truthy r = true /\ is_array p = true) turns ->
  readable turns.
Proof.
  unfold readable. apply Forall_impl.
  intros t [r [p [-> _]]]. reflexivity.
Qed.

(** X26.  The widget and the servers fit: when either server receives
    what the widget sent (its body parsed back to the object the widget
    wrote), the history filter drops nothing, and the payload is the
    persona pair, the last ten turns of the widget's conversation in
    order, and the user's text.  The Worker primes with its own barista
    prompt and not with the system prompt the widget sent; the Pages
    Function primes with the widget's. *)
Theorem widget_history_forwarded_whole (P : Platform) (req : Request)
      (env : Env) (m k : string) (pairs : list (string * string)) :
  method req = "POST" ->
  JSON_parse P (req_text req) = Some (widget_body m (kept pairs)) ->
  m <> "" ->
  API_KEY_caffine env = Some k -> k <> "" ->
  calls (run (Worker.fetch P req env))
  = [Worker.outbound k
       (priming_pair Worker.BARISTA_PROMPT Worker.ACK
        ++ slice_last 10 (kept pairs)
        ++ [text_turn "user" (JStr m)])]
  /\ calls (run (PagesFunction.onRequestPost P req env))
     = [PagesFunction.outbound k
          (priming_pair ChatPage.SYSTEM_PROMPT PagesFunction.ACK
           ++ slice_last 10 (kept pairs)
           ++ [text_turn "user" (JStr m)])].
Proof.
  intros Hpost Hparse Hm Hkey Hk.
  pose proof (Forall_slice_last _ 10 _ (kept_well_formed pairs)) as Hwf.
  pose proof (well_formed_readable _ Hwf) as Hread.
  destruct (forwarded_well_formed (kept pairs) Hwf) as [Hfp Hfw].
  split.
  - rewrite (worker_payload P req env (widget_body m (kept pairs)) k
               (kept pairs)); try assumption; try reflexivity.
    rewrite Hfw. reflexivity.
  - rewrite (pages_payload P req env (widget_body m (kept pairs)) m
               ChatPage.SYSTEM_PROMPT k (kept pairs));
      try assumption; try reflexivity.
    rewrite Hfp. reflexivity.
Qed.

Lemma widget_history_forwarded_whole_witness :
  calls (run (Worker.fetch
                (mkPlatform (fun _ => Some (widget_body "more?" (kept [("hi", "hello")])))
                   (fun _ => Answered 200 Visit.reply_body) Demo.messages)
                (Demo.post "") Demo.env_key))
  = [Worker.outbound "secret"
       (priming_pair Worker.BARISTA_PROMPT Worker.ACK
        ++ exchange "hi" "hello"
        ++ [text_turn "user" (JStr "more?")])].
Proof.
  apply (widget_history_forwarded_whole
           (mkPlatform (fun _ => Some (widget_body "more?" (kept [("hi", "hello")])))
              (fun _ => Answered 200 Visit.reply_body) Demo.messages)
           (Demo.post "") Demo.env_key "more?" "secret" [("hi", "hello")]);
    try reflexivity; discriminate.
Defined.

Lemma slice_last_app {A : Type} (n : nat) (old recent : list A) :
  length recent = n -> slice_last n (old ++ recent) = recent.
Proof.
  intros H. unfold slice_last. rewrite length_app, H.
  replace (length old + n - n)%nat with (length old) by lia.
  rewrite skipn_app, skipn_all, Nat.sub_diag. reflexivity.
Qed.

(** X27.  Turns older than the last ten have no effect at all: two
    requests that agree on the message, the system prompt and the last
    ten history entries are handled alike by both handlers, whatever
    comes before those ten, a null entry included. *)
Theorem old_history_has_no_effect (P : Platform) (req1 req2 : Request)
      (env : Env) (body1 body2 : JsVal) (old1 old2 recent : list JsVal) :
  method req1 = method req2 ->
  JSON_parse P (req_text req1) = Some body1 ->
  JSON_parse P (req_text req2) = Some body2 ->
  nullish body1 = false -> nullish body2 = false ->
  prop body1 "message" = prop body2 "message" ->
  prop body1 "systemPrompt" = prop body2 "systemPrompt" ->
  prop body1 "history" = JArr (old1 ++ recent) ->
  prop body2 "history" = JArr (old2 ++ recent) ->
  length recent = 10%nat ->
  run (PagesFunction.onRequestPost P req1 env)
  = run (PagesFunction.onRequestPost P req2 env)
  /\ run (Worker.fetch P req1 env) = run (Worker.fetch P req2 env).
Proof.
  intros Hmethod Hp1 Hp2 Hb1 Hb2 Hmsg Hsp Hh1 Hh2 Hlen. split.
  - open_pages. rewrite Hp1, Hp2. simpl. rewrite Hb1, Hb2. simpl.
    rewrite Hmsg, Hsp, Hh1, Hh2. simpl.
    unfold PagesFunction.build_contents.
    rewrite !(slice_last_app 10 _ recent Hlen). reflexivity.
  - open_worker. rewrite Hmethod, Hp1, Hp2. simpl. rewrite Hb1, Hb2. simpl.
    rewrite Hmsg, Hh1, Hh2. simpl.
    unfold Worker.build_contents, Worker.each_recent.
    rewrite !(slice_last_app 10 _ recent Hlen). reflexivity.
Qed.

Lemma old_history_has_no_effect_witness :
  run (PagesFunction.onRequestPost Long.platform (Demo.post "eleven")
         Demo.env_key)
  = run (PagesFunction.onRequestPost Long.platform (Demo.post "ten")
           Demo.env_key)
  /\ run (Worker.fetch Long.platform (Demo.post "eleven") Demo.env_key)
     = run (Worker.fetch Long.platform (Demo.post "ten") Demo.env_key).
Proof.
  apply (old_history_has_no_effect Long.platform (Demo.post "eleven")
           (Demo.post "ten") Demo.env_key (Long.body [JNull]) (Long.body [])
           [JNull] [] Long.recent);
    reflexivity.
Defined.

Lemma prefix_holds (needle s : string) :
  prefix needle s = true <-> exists after, s = (needle ++ after)%string.
Proof.
  revert s. induction needle as [| c needle IH]; intros s.
  - split; [intros _; exists s; reflexivity | intros _; destruct s; reflexivity].
  - destruct s as [| d s]; simpl.
    + split; [discriminate | intros [after H]; discriminate H].
    + destruct (Ascii.ascii_dec c d) as [-> | Hne].
      * rewrite IH. split; intros [after H]; exists after.
        -- rewrite H. reflexivity.
        -- injection H as H. exact H.
      * split; [discriminate | intros [after H]].
        injection H as H _. congruence.
Qed.

Lemma includes_step (needle s : string) :
  ChatPage.includes needle s
  = if prefix needle s then true
    else match s with
         | EmptyString => false
         | String _ rest => ChatPage.includes needle rest
         end.
Proof. destruct s; reflexivity. Qed.

(** [includes] is true of the names that hold the needle, and of no
    other. *)
Lemma includes_holds (needle s : string) :
  ChatPage.includes needle s = true <-> holds needle s.
Proof.
  unfold holds. split.
  - induction s as [| c s IH]; rewrite includes_step.
    + destruct (prefix needle "") eqn:Hp; [| discriminate].
      intros _. apply prefix_holds in Hp. destruct Hp as [after H].
      exists "", after. exact H.
    + destruct (prefix needle (String c s)) eqn:Hp.
      * intros _. apply prefix_holds in Hp. destruct Hp as [after H].
        exists "", after. exact H.
      * intros H. destruct (IH H) as [before [after ->]].
        exists (String c before), after. reflexivity.
  - intros [before [after ->]].
    induction before as [| c before IH]; rewrite includes_step.
    + replace (prefix needle ("" ++ needle ++ after)) with true;
        [reflexivity |].
      symmetry. apply prefix_holds. exists after. reflexivity.
    + change (String c before ++ needle ++ after)%string
        with (String c (before ++ needle ++ after)%string).
      destruct (prefix needle (String c (before ++ needle ++ after)));
        [reflexivity | exact IH].
Qed.

Lemma sounds_natural_spec (name : string) :
  sounds_natural name = true <-> natural name.
Proof.
  unfold sounds_natural, natural.
  rewrite orb_true_iff, !includes_holds. tauto.
Qed.

Lemma sounds_natural_not (names : list string) :
  Forall (fun w => sounds_natural w = false) names ->
  Forall (fun w => ~ natural w) names.
Proof.
  apply Forall_impl. intros w H Hn.
  apply sounds_natural_spec in Hn. congruence.
Qed.

(** What [find] gives is the first element that passes. *)
Lemma find_first {A : Type} (f : A -> bool) (xs : list A) (v : A) :
  find f xs = Some v ->
  exists before after,
    xs = before ++ v :: after
    /\ f v = true
    /\ Forall (fun w => f w = false) before.
Proof.
  induction xs as [| x xs IH]; simpl; [discriminate |].
  destruct (f x) eqn:Hx.
  - intros H. injection H as <-. exists [], xs. repeat split; auto.
  - intros H. destruct (IH H) as [before [after [-> [Hv Hb]]]].
    exists (x :: before), after. repeat split; auto.
Qed.

(** X28.  speak picks the first voice, in the order of the list, whose
    name holds Google or Natural, whenever there is one, and otherwise
    the first voice of the list; it sets no voice only when there are
    none. *)
Theorem natural_voice_preferred (voices : list string) :
  (ChatPage.naturalVoice voices = None <-> voices = [])
  /\ forall v,
       ChatPage.naturalVoice voices = Some v ->
       (natural v
        /\ exists before after,
             voices = before ++ v :: after
             /\ Forall (fun w => ~ natural w) before)
       \/ (Forall (fun w => ~ natural w) voices
           /\ exists rest, voices = v :: rest).
Proof.
  unfold ChatPage.naturalVoice. fold sounds_natural.
  destruct (find sounds_natural voices) as [w |] eqn:Hfind.
  - split.
    + split; [discriminate | intros ->; discriminate Hfind].
    + intros v Hv. injection Hv as <-. left.
      destruct (find_first _ _ _ Hfind) as [before [after [Hvs [Hw Hb]]]].
      split; [apply sounds_natural_spec, Hw |].
      exists before, after. split; [exact Hvs |].
      apply sounds_natural_not, Hb.
  - split.
    + destruct voices; simpl; split; intros H; try reflexivity;
        discriminate H.
    + intros v Hv. right. split.
      * apply sounds_natural_not, Forall_forall. intros x Hx.
        apply (find_none _ _ Hfind x Hx).
      * destruct voices as [| x xs]; simpl in Hv; [discriminate Hv |].
        injection Hv as <-. exists xs. reflexivity.
Qed.

Lemma natural_voice_preferred_witness :
  (natural "Google US English"
   /\ exists before after,
        ["Alex"; "Google US English"; "Microsoft Aria (Natural)"]
        = before ++ "Google US English" :: after
        /\ Forall (fun w => ~ natural w) before)
  \/ (Forall (fun w => ~ natural w)
        ["Alex"; "Google US English"; "Microsoft Aria (Natural)"]
      /\ exists rest,
           ["Alex"; "Google US English"; "Microsoft Aria (Natural)"]
           = "Google US English" :: rest).
Proof.
  apply (proj2 (natural_voice_preferred
                  ["Alex"; "Google US English"; "Microsoft Aria (Natural)"])).
  reflexivity.
Defined.
